(** * Termineter meter modules: get_data_mqtt.py and get_data.py

    A shallow embedding of the two Termineter modules that poll tables 23
    and 28 of a C12.19 meter.  [get_data_mqtt.py] decodes the buffers and
    republishes the values over MQTT with Home Assistant discovery
    payloads; [get_data.py] dumps the buffers to files.

    Python objects are modelled as follows.
    - [bytes] is [list byte]; [str] is [string], each character being a
      code point below 256.
    - [int] is [Z]; [float] is the kernel's binary64 [float]; [int / int]
      is the IEEE quotient of the two converted operands, which is what
      Python computes for operands below 2^53 in magnitude.
    - A [dict] is an association list in insertion order.
    - Exceptions, the serial connection and every call into the framework
      or the broker client are effects of the monad [M]: a computation
      takes the state of the connection and gives a result or a raised
      exception, the next state and the events it emitted, in order. *)

From Stdlib Require Import ZArith List String Ascii Bool Lia Floats.
From Stdlib Require Import Strings.Byte.
Import ListNotations.

Set Warnings "-register-all".
Local Open Scope Z_scope.
Local Open Scope list_scope.

Declare Scope py_scope.
Delimit Scope py_scope with py.
Local Open Scope py_scope.

Infix "+++" := String.append (right associativity, at level 60) : py_scope.

(** ** Python values *)

Module Py.

Definition bytes := list byte.

(** A number held by a decoded mapping: [int32_values[i]] is an [int],
    [int32_values[i] / 1000] is a [float]. *)
Inductive Num : Type :=
| PyInt (z : Z)
| PyFloat (f : float).

(** The exceptions the two modules can meet. *)
Inductive Exn : Type :=
| C1218ReadTableError (msg : string)
| StructError
| IndexError
| UnboundLocalError (name : string)
| ValueError (msg : string)
| OtherError (msg : string).

Inductive Result (A : Type) : Type :=
| Ok (a : A)
| Raise (e : Exn).
Arguments Ok {A} a.
Arguments Raise {A} e.

(** [float(z)] for an [int] that fits 63 bits. *)
Definition float_of_int (z : Z) : float :=
  if z <? 0 then PrimFloat.opp (PrimFloat.of_uint63 (Uint63.of_Z (- z)))
  else PrimFloat.of_uint63 (Uint63.of_Z z).

(** [a / b] on two [int]s (true division). *)
Definition truediv (a b : Z) : Num :=
  PyFloat (PrimFloat.div (float_of_int a) (float_of_int b)).

(** *** dict *)

Definition Dict (V : Type) := list (string * V).

Fixpoint dict_get {V} (d : Dict V) (k : string) : option V :=
  match d with
  | [] => None
  | (k', v) :: d' => if String.eqb k k' then Some v else dict_get d' k
  end.

(** [d[k] = v]: the value is replaced in place, a new key goes last. *)
Fixpoint dict_set {V} (d : Dict V) (k : string) (v : V) : Dict V :=
  match d with
  | [] => [(k, v)]
  | (k', v') :: d' =>
      if String.eqb k k' then (k', v) :: d' else (k', v') :: dict_set d' k v
  end.

Definition keys {V} (d : Dict V) : list string := map fst d.

(** Truth value of a container: non-empty. *)
Definition truthy_list {A} (l : list A) : bool :=
  match l with [] => false | _ => true end.

Definition truthy_str (s : string) : bool :=
  match s with EmptyString => false | _ => true end.

(** The last character of a string, if it has one. *)
Fixpoint last_char (s : string) : option ascii :=
  match s with
  | EmptyString => None
  | String c s' =>
      match s' with
      | EmptyString => Some c
      | String _ _ => last_char s'
      end
  end.

(** *** struct.unpack("<" + "i" * count, buffer) *)

Definition to_signed32 (u : Z) : Z :=
  if u <? 2 ^ 31 then u else u - 2 ^ 32.

Definition byteZ (b : byte) : Z := Z.of_N (Byte.to_N b).

(** One ["<i"] field: four bytes, least significant first, two's
    complement. *)
Definition int32_le (b0 b1 b2 b3 : byte) : Z :=
  to_signed32
    (byteZ b0 + 2 ^ 8 * byteZ b1 + 2 ^ 16 * byteZ b2 + 2 ^ 24 * byteZ b3).

Fixpoint unpack_fields (count : nat) (buf : bytes) : list Z :=
  match count with
  | O => []
  | S n =>
      match buf with
      | b0 :: b1 :: b2 :: b3 :: rest =>
          int32_le b0 b1 b2 b3 :: unpack_fields n rest
      | _ => []
      end
  end.

(** [struct.pack("<i", z)], to write down the buffers of the examples. *)
Definition byte_of_Z (z : Z) : byte :=
  match Byte.of_N (Z.to_N (z mod 256)) with
  | Some b => b
  | None => x00
  end.

Definition pack_le_i32 (z : Z) : bytes :=
  let u := z mod 2 ^ 32 in
  [ byte_of_Z u; byte_of_Z (u / 2 ^ 8); byte_of_Z (u / 2 ^ 16);
    byte_of_Z (u / 2 ^ 24) ].

(** [struct.unpack] raises [struct.error] unless the buffer has exactly
    the size of the format.  [struct.error] derives from [Exception], not
    from [ValueError]. *)
Definition struct_unpack_le_i32 (count : nat) (buf : bytes)
  : Result (list Z) :=
  if Nat.eqb (List.length buf) (4 * count) then Ok (unpack_fields count buf)
  else Raise StructError.

(** [t[i]] on a tuple, for a literal index [i >= 0]. *)
Definition tuple_getitem (t : list Z) (i : nat) : Result Z :=
  match nth_error t i with
  | Some v => Ok v
  | None => Raise IndexError
  end.

(** *** binascii.b2a_hex(data).decode('utf-8') *)

Definition hex_digit (n : N) : ascii :=
  if (n <? 10)%N then ascii_of_N (48 + n) else ascii_of_N (87 + n).

Definition hex_of_byte (b : byte) : string :=
  let n := Byte.to_N b in
  String (hex_digit (n / 16)) (String (hex_digit (n mod 16)) EmptyString).

Definition b2a_hex (data : bytes) : string :=
  String.concat EmptyString (map hex_of_byte data).

(** *** json.dumps

    The values the module serialises are strings, lists and dicts.
    [json.dumps] is called with its defaults: separators [", "] and
    [": "], keys in insertion order, [ensure_ascii=True]. *)

Inductive Json : Type :=
| JStr (s : string)
| JList (l : list Json)
| JObj (o : list (string * Json)).

Definition dquote : string := String (ascii_of_N 34) EmptyString.

(** One character of [py_encode_basestring_ascii]. *)
Definition escape_char (c : ascii) : string :=
  let n := N_of_ascii c in
  if (n =? 34)%N then "\" +++ dquote
  else if (n =? 92)%N then "\\"
  else if (n =? 10)%N then "\n"
  else if (n =? 13)%N then "\r"
  else if (n =? 9)%N then "\t"
  else if (n =? 8)%N then "\b"
  else if (n =? 12)%N then "\f"
  else if ((32 <=? n) && (n <=? 126))%N then String c EmptyString
  else "\u00" +++ String (hex_digit (n / 16))
                   (String (hex_digit (n mod 16)) EmptyString).

Fixpoint escape_string (s : string) : string :=
  match s with
  | EmptyString => EmptyString
  | String c s' => escape_char c +++ escape_string s'
  end.

Definition encode_basestring_ascii (s : string) : string :=
  dquote +++ escape_string s +++ dquote.

Fixpoint json_dumps (j : Json) : string :=
  match j with
  | JStr s => encode_basestring_ascii s
  | JList l => "[" +++ String.concat ", " (map json_dumps l) +++ "]"
  | JObj o =>
      "{" +++
      String.concat ", "
        (map (fun kv => encode_basestring_ascii (fst kv) +++ ": " +++
                        json_dumps (snd kv)) o)
      +++ "}"
  end.

End Py.

(** ** Effects: the framework, the connection and the broker *)

Module Fx.
Import Py.

(** What a log call is given.  The text is a formatted string in the
    source; the model keeps the values that go into it. *)
Inductive Msg : Type :=
| MsgMqttConnected
| MsgMqttConnectFailed (err : string)
| MsgConfigCreated (key : string) (data : Json)
| MsgNoConfig (key : string)
| MsgInitialConfigPublished (topic : string)
| MsgDataPublished (topic : string) (value : Num)
| MsgParsed (table_id : Z) (data : Dict Num)
| MsgConvertError (table_id : Z) (err : string)
| MsgRead (len : nat)
| MsgCaught (err : string).

(** What [client.publish] is given as payload. *)
Inductive Payload : Type :=
| PStr (s : string)
| PNum (v : Num).

(** The calls that leave the module, in the order they are made. *)
Inductive Event : Type :=
| EvGetTablePart (tableid octet offset : Z)
| EvPrintStatus (m : Msg)
| EvPrintError (m : Msg)
| EvPrintHexdump (data : bytes)
| EvLogWarning (m : Msg)
| EvMqttConnect
| EvPublish (topic : string) (payload : Payload) (qos : Z) (retain : bool)
| EvFileWrite (path : string) (content : string).

(** *** The broker client

    [paho.mqtt.client.Client.publish(topic, payload, qos, retain)] checks
    its arguments before it queues the message, and raises [ValueError]
    when the topic is empty, when it contains [+] or [#] or is longer
    than 65535 bytes in UTF-8, when [qos] is not 0, 1 or 2, and when the
    payload is longer than 268435455 bytes.  A client that is not
    connected returns an error code and raises nothing. *)

(** The length of [s.encode('utf-8')]: a code point below 128 is one
    byte, one below 256 two. *)
Fixpoint utf8_length (s : string) : N :=
  match s with
  | EmptyString => 0%N
  | String c s' =>
      ((if N_of_ascii c <? 128 then 1 else 2) + utf8_length s')%N
  end.

(** [b'+' in topic or b'#' in topic]. *)
Fixpoint has_wildcard (s : string) : bool :=
  match s with
  | EmptyString => false
  | String c s' =>
      (N_of_ascii c =? 43)%N || (N_of_ascii c =? 35)%N || has_wildcard s'
  end.

(** A topic [publish] accepts. *)
Definition topic_ok (topic : string) : bool :=
  truthy_str topic && negb (has_wildcard topic) &&
  (utf8_length topic <=? 65535)%N.

(** A number is sent as [str(payload)], a few characters. *)
Definition payload_too_large (payload : Payload) : bool :=
  match payload with
  | PStr s => (268435455 <? utf8_length s)%N
  | PNum _ => false
  end.

(** The message of the [ValueError] of [publish], if it raises one. *)
Definition client_publish_error (topic : string) (payload : Payload)
  (qos : Z) : option string :=
  if negb (truthy_str topic) then Some "Invalid topic."%string
  else if has_wildcard topic || (65535 <? utf8_length topic)%N
  then Some "Publish topic cannot contain wildcards."%string
  else if (qos <? 0) || (2 <? qos)
  then Some "Invalid QoS level."%string
  else if payload_too_large payload
  then Some "Payload too large."%string
  else None.

Section Monad.
Context {St : Type}.

Definition M (A : Type) : Type := St -> Result A * St * list Event.

Definition ret {A} (a : A) : M A := fun s => (Ok a, s, []).

Definition raise {A} (e : Exn) : M A := fun s => (Raise e, s, []).

Definition bind {A B} (m : M A) (k : A -> M B) : M B := fun s =>
  match m s with
  | (Ok a, s1, t1) =>
      match k a s1 with (r, s2, t2) => (r, s2, t1 ++ t2) end
  | (Raise e, s1, t1) => (Raise e, s1, t1)
  end.

Definition emit (e : Event) : M unit := fun s => (Ok tt, s, [e]).

(** A pure step that may raise. *)
Definition lift {A} (r : Result A) : M A := fun s => (r, s, []).

(** [try: body except <the exceptions h accepts>: h e].  What the body
    did before it raised stays done. *)
Definition try_except {A} (body : M A) (h : Exn -> option (M A)) : M A :=
  fun s =>
  match body s with
  | (Ok a, s1, t1) => (Ok a, s1, t1)
  | (Raise e, s1, t1) =>
      match h e with
      | Some handler =>
          match handler s1 with (r, s2, t2) => (r, s2, t1 ++ t2) end
      | None => (Raise e, s1, t1)
      end
  end.

(** [for x in l: body x]. *)
Fixpoint for_each {A} (l : list A) (body : A -> M unit) : M unit :=
  match l with
  | [] => ret tt
  | x :: l' => bind (body x) (fun _ => for_each l' body)
  end.

(** Reading a local variable that may not have been assigned. *)
Definition load_local {A} (name : string) (v : option A) : M A :=
  match v with
  | Some a => ret a
  | None => raise (UnboundLocalError name)
  end.

(** The serial connection: what [get_table_part(tableid, octet, offset)]
    answers in a state of the link, and the state it leaves. *)
Definition TableSource : Type := St -> Z -> Z -> Z -> Result bytes * St.

Definition get_table_part (conn : TableSource) (tableid octet offset : Z)
  : M bytes :=
  fun s =>
  match conn s tableid octet offset with
  | (r, s') => (r, s', [EvGetTablePart tableid octet offset])
  end.

(** [client.publish]: the call is made, and raises or returns. *)
Definition client_publish (topic : string) (payload : Payload) (qos : Z)
  (retain : bool) : M unit :=
  bind (emit (EvPublish topic payload qos retain)) (fun _ =>
  match client_publish_error topic payload qos with
  | Some msg => raise (ValueError msg)
  | None => ret tt
  end).

(** A computation that does not use the connection: its result and its
    events are the same in every state, and the state stays. *)
Definition stateless {A} (m : M A) : Prop :=
  exists (r : Result A) (t : list Event), forall s, m s = (r, s, t).

Definition result_of {A} (x : Result A * St * list Event) : Result A :=
  fst (fst x).
Definition state_of {A} (x : Result A * St * list Event) : St :=
  snd (fst x).
Definition events_of {A} (x : Result A * St * list Event) : list Event :=
  snd x.

End Monad.
Arguments M St A : clear implicits.
Arguments TableSource St : clear implicits.

Notation "x <- m ;; k" := (bind m (fun x => k))
  (at level 61, m at next level, right associativity) : py_scope.
Notation "m ;; k" := (bind m (fun _ => k))
  (at level 61, right associativity) : py_scope.

End Fx.

(** ** get_data_mqtt.py *)

Module GetDataMqtt.
Import Py Fx.

Section Module_.

(** [mqtt_config.py] is not among the sources: the names the module
    imports from it are parameters.  [meter_id] is taken to be a string. *)
Variables mqtt_topic_prefix meter_name meter_id : string.

(** What [client.connect(mqtt_host, int(mqtt_port))] does in
    [setup_mqtt]: [None] when it returns, [Some err] when it raises. *)
Variable connect_outcome : option string.

(** The serial connection [frmwk.serial_connection]. *)
Variable ConnState : Type.
Variable conn : TableSource ConnState.

Definition sensor_types : list string :=
  [ "Fwd_kWh"; "Rev_kWh"; "fwd_Now"; "rev_Now";
    "L1_A"; "L1_V"; "L2_A"; "L2_V"; "L3_A"; "L3_V" ]%string.

Definition setup_mqtt : M ConnState unit :=
  emit EvMqttConnect ;;
  match connect_outcome with
  | None => emit (EvPrintStatus MsgMqttConnected)
  | Some err => emit (EvPrintError (MsgMqttConnectFailed err))
  end.

(** [publish(self, topic, payload, qos=0, retain=False)]: the default of
    [qos], which [publish_initial_configurations] relies on. *)
Definition publish_default_qos : Z := 0.

Definition publish (topic : string) (payload : Payload) (qos : Z)
  (retain : bool) : M ConnState unit :=
  client_publish topic payload qos retain.

(** A row of [config_details]:
    [(icon, name, unit, state_class, device_class)]. *)
Definition ConfigEntry : Type :=
  (string * string * string * string * option string)%type.

Definition config_details : Dict ConfigEntry :=
  [ ("Fwd_kWh", ("mdi:transmission-tower-import", "Energy Import", "kWh",
                 "total_increasing", Some "energy"));
    ("Rev_kWh", ("mdi:transmission-tower-export", "Energy Export", "kWh",
                 "total_increasing", Some "energy"));
    ("fwd_Now", ("mdi:meter-electric-outline", "Power Import", "W",
                 "measurement", Some "power"));
    ("rev_Now", ("mdi:meter-electric", "Power Export", "W",
                 "measurement", Some "power"));
    ("L1_A", ("mdi:alpha-a-circle", "Phase 1 Amperage", "A",
              "measurement", None));
    ("L1_V", ("mdi:alpha-v-circle", "Phase 1 Voltage", "V",
              "measurement", Some "voltage"));
    ("L2_A", ("mdi:alpha-a-circle", "Phase 2 Amperage", "A",
              "measurement", None));
    ("L2_V", ("mdi:alpha-v-circle", "Phase 2 Voltage", "V",
              "measurement", Some "voltage"));
    ("L3_A", ("mdi:alpha-a-circle", "Phase 3 Amperage", "A",
              "measurement", None));
    ("L3_V", ("mdi:alpha-v-circle", "Phase 3 Voltage", "V",
              "measurement", Some "voltage")) ]%string.

(** The dict [data] of [get_or_create_config], lines 117 to 134. *)
Definition config_data (key : string) (entry : ConfigEntry) : Dict Json :=
  match entry with
  | (icon, name, unit, state_class, device_class) =>
      let data : Dict Json :=
        [ ("device",
           JObj [ ("identifiers", JList [JStr meter_id]);
                  ("manufacturer", JStr "Networked Electricity Services");
                  ("model", JStr "NES-Meter");
                  ("name", JStr "Electricity Meter") ]);
          ("name", JStr name);
          ("unit_of_measurement", JStr unit);
          ("state_topic",
           JStr (mqtt_topic_prefix +++ "/" +++ meter_name +++ "/" +++ key));
          ("unique_id", JStr (meter_id +++ "_" +++ key));
          ("state_class", JStr state_class);
          ("icon", JStr icon);
          ("platform", JStr "mqtt") ]%string in
      match device_class with
      | Some dc =>
          if truthy_str dc then dict_set data "device_class" (JStr dc)
          else data
      | None => data
      end
  end.

Definition get_or_create_config (key : string)
  : M ConnState (option string) :=
  match dict_get config_details key with
  | Some entry =>
      let data := config_data key entry in
      emit (EvPrintStatus (MsgConfigCreated key (JObj data))) ;;
      ret (Some (json_dumps (JObj data)))
  | None =>
      emit (EvLogWarning (MsgNoConfig key)) ;;
      ret None
  end.

Definition config_topic_of (sensor_type : string) : string :=
  "homeassistant/sensor/" +++ meter_name +++ "_" +++ sensor_type +++ "/config".

Definition publish_initial_configurations (sensor_types : list string)
  : M ConnState unit :=
  for_each sensor_types (fun sensor_type =>
    config_payload <- get_or_create_config sensor_type ;;
    match config_payload with
    | Some payload =>
        if truthy_str payload then
          let config_topic := config_topic_of sensor_type in
          publish config_topic (PStr payload) publish_default_qos true ;;
          emit (EvPrintStatus (MsgInitialConfigPublished config_topic))
        else ret tt
    | None => ret tt
    end).

Definition data_topic_of (key : string) : string :=
  mqtt_topic_prefix +++ "/" +++ meter_name +++ "/" +++ key.

Definition publish_data (buffer_dict : Dict Num) : M ConnState unit :=
  for_each buffer_dict (fun kv =>
    let data_topic := data_topic_of (fst kv) in
    publish data_topic (PNum (snd kv)) 0 false ;;
    emit (EvPrintStatus (MsgDataPublished data_topic (snd kv)))).

(** Lines 159 and 160: the buffer is filled with zero bytes up to 36. *)
Definition pad36 (byte : bytes) : bytes :=
  if (List.length byte <? 36)%nat
  then byte ++ repeat x00 (36 - List.length byte)
  else byte.

(** [parse_input_buffer].  The local [data] is assigned in the two
    branches only; the f-string of line 180 reads it. *)
Definition parse_input_buffer (byte : bytes) (table_id : Z)
  : M ConnState (Dict Num) :=
  try_except
    (let byte := pad36 byte in
     int32_values <-
       lift (struct_unpack_le_i32 (List.length byte / 4) byte) ;;
     data <-
       (if table_id =? 23 then
          v0 <- lift (tuple_getitem int32_values 0) ;;
          v1 <- lift (tuple_getitem int32_values 1) ;;
          ret (Some [ ("Fwd_kWh", truediv v0 1000);
                      ("Rev_kWh", truediv v1 1000) ]%string)
        else if table_id =? 28 then
          v0 <- lift (tuple_getitem int32_values 0) ;;
          v1 <- lift (tuple_getitem int32_values 1) ;;
          v4 <- lift (tuple_getitem int32_values 4) ;;
          v5 <- lift (tuple_getitem int32_values 5) ;;
          v6 <- lift (tuple_getitem int32_values 6) ;;
          v7 <- lift (tuple_getitem int32_values 7) ;;
          v8 <- lift (tuple_getitem int32_values 8) ;;
          v9 <- lift (tuple_getitem int32_values 9) ;;
          ret (Some [ ("fwd_Now", PyInt v0);
                      ("rev_Now", PyInt v1);
                      ("L1_A", truediv v4 1000);
                      ("L2_A", truediv v5 1000);
                      ("L3_A", truediv v6 1000);
                      ("L1_V", truediv v7 1000);
                      ("L2_V", truediv v8 1000);
                      ("L3_V", truediv v9 1000) ]%string)
        else ret None) ;;
     data <- load_local "data" data ;;
     emit (EvPrintStatus (MsgParsed table_id data)) ;;
     ret data)
    (fun e =>
       match e with
       | ValueError err =>
           Some (emit (EvPrintError (MsgConvertError table_id err)) ;;
                 ret [])
       | _ => None
       end).

Definition read_and_process_data (table_id octet : Z) : M ConnState unit :=
  try_except
    (data <- get_table_part conn table_id octet 0 ;;
     emit (EvPrintHexdump data) ;;
     emit (EvPrintStatus (MsgRead (List.length data))) ;;
     parsed_data <- parse_input_buffer data table_id ;;
     if truthy_list parsed_data then publish_data parsed_data else ret tt)
    (fun e =>
       match e with
       | C1218ReadTableError error =>
           Some (emit (EvPrintError (MsgCaught error)))
       | _ => None
       end).

Definition run : M ConnState unit :=
  read_and_process_data 23 8 ;;
  read_and_process_data 28 40.

(** [__init__], from [setup_mqtt] on. *)
Definition init : M ConnState unit :=
  setup_mqtt ;;
  publish_initial_configurations sensor_types.

(** *** The decoder as the specification words it

    The definitions below follow the specification, not the source; the
    theorems compare [parse_input_buffer] with them. *)

(** The [i]-th 4-byte little-endian signed integer of a buffer that is
    continued with zero bytes. *)
Definition int32_at (buf : bytes) (i : nat) : Z :=
  int32_le (nth (4 * i) buf x00) (nth (4 * i + 1) buf x00)
           (nth (4 * i + 2) buf x00) (nth (4 * i + 3) buf x00).

(** FieldLayout: per table id, [(metricKey, fieldIndex, scale)]. *)
Definition field_layout (table_id : Z) : list (string * nat * Z) :=
  if table_id =? 23 then
    [ ("Fwd_kWh", 0%nat, 1000); ("Rev_kWh", 1%nat, 1000) ]%string
  else if table_id =? 28 then
    [ ("fwd_Now", 0%nat, 1); ("rev_Now", 1%nat, 1);
      ("L1_A", 4%nat, 1000); ("L2_A", 5%nat, 1000); ("L3_A", 6%nat, 1000);
      ("L1_V", 7%nat, 1000); ("L2_V", 8%nat, 1000); ("L3_V", 9%nat, 1000)
    ]%string
  else [].

(** The value of a field: the integer itself at scale 1, the quotient
    otherwise. *)
Definition scaled (v scale : Z) : Num :=
  if scale =? 1 then PyInt v else truediv v scale.

Definition decode_spec (table_id : Z) (buf : bytes) : Dict Num :=
  map (fun f => (fst (fst f), scaled (int32_at buf (snd (fst f))) (snd f)))
      (field_layout table_id).

(** The highest field index of a table's layout. *)
Definition max_field_index (table_id : Z) : nat :=
  fold_right Nat.max 0%nat (map (fun f => snd (fst f)) (field_layout table_id)).

(** *** Discovery payloads and topics *)

(** The payload of a key: the serialised [data] of its catalog row. *)
Definition discovery_payload (key : string) : option string :=
  match dict_get config_details key with
  | Some entry => Some (json_dumps (JObj (config_data key entry)))
  | None => None
  end.

(** What [publish_initial_configurations] does for one key. *)
Definition config_events (key : string) : list Event :=
  match dict_get config_details key with
  | Some entry =>
      let data := config_data key entry in
      [ EvPrintStatus (MsgConfigCreated key (JObj data));
        EvPublish (config_topic_of key) (PStr (json_dumps (JObj data)))
                  publish_default_qos true;
        EvPrintStatus (MsgInitialConfigPublished (config_topic_of key)) ]
  | None => [ EvLogWarning (MsgNoConfig key) ]
  end.

(** What [publish_data] does for one entry of the mapping. *)
Definition data_events (kv : string * Num) : list Event :=
  [ EvPublish (data_topic_of (fst kv)) (PNum (snd kv)) 0 false;
    EvPrintStatus (MsgDataPublished (data_topic_of (fst kv)) (snd kv)) ].


Definition is_config_topic (topic : string) : Prop :=
  exists key, In key sensor_types /\ topic = config_topic_of key.

Definition is_data_topic (topic : string) : Prop :=
  exists key, In key sensor_types /\ topic = data_topic_of key.

(** A publish as the broker interface wants it: QoS 0, retained exactly
    on a discovery topic, unretained exactly on a data topic. *)
Definition publish_conforms (e : Event) : Prop :=
  match e with
  | EvPublish topic _ qos retain =>
      qos = 0 /\
      (retain = true <-> is_config_topic topic) /\
      (retain = false <-> is_data_topic topic)
  | _ => True
  end.

Definition is_publish (e : Event) : bool :=
  match e with EvPublish _ _ _ _ => true | _ => false end.

(** *** What the broker client accepts *)

(** The data topic of a key is one the client accepts. *)
Definition data_topic_ok (key : string) : bool :=
  topic_ok (data_topic_of key).

(** The discovery publish of a key, if one is made, is one the client
    accepts: the topic, and the size of the payload. *)
Definition config_publish_ok (key : string) : bool :=
  match discovery_payload key with
  | Some p =>
      topic_ok (config_topic_of key) && negb (payload_too_large (PStr p))
  | None => true
  end.

(** The client accepts the data topic of every sensor key. *)
Definition data_topics_ok : Prop :=
  forall key, In key sensor_types -> data_topic_ok key = true.

(** The client accepts the discovery publish of every sensor key. *)
Definition config_publishes_ok : Prop :=
  forall key, In key sensor_types -> config_publish_ok key = true.

End Module_.
End GetDataMqtt.

(** ** get_data.py *)

Module GetData.
Import Py Fx.

Section Module_.

Variable ConnState : Type.
Variable conn : TableSource ConnState.

(** [open(path, 'w', 1)], [write], [close]: the file is given its whole
    content. *)
Definition write_file (path content : string) : M ConnState unit :=
  emit (EvFileWrite path content).

(** [run].  The local [data] is assigned by the two [try] bodies only: a
    handler leaves it as it was. *)
Definition run : M ConnState unit :=
  let data : option bytes := None in
  let tableid := 23 in
  let offset := 0 in
  let octet := 8 in
  data <-
    try_except
      (d <- get_table_part conn tableid octet offset ;; ret (Some d))
      (fun e =>
         match e with
         | C1218ReadTableError error =>
             Some (emit (EvPrintError (MsgCaught error)) ;; ret data)
         | _ => None
         end) ;;
  d <- load_local "data" data ;;
  emit (EvPrintStatus (MsgRead (List.length d))) ;;
  emit (EvPrintHexdump d) ;;
  write_file "/var/tmp/BT23" (b2a_hex d) ;;
  let tableid := 28 in
  let offset := 0 in
  let octet := 40 in
  data <-
    try_except
      (d <- get_table_part conn tableid octet offset ;; ret (Some d))
      (fun e =>
         match e with
         | C1218ReadTableError error =>
             Some (emit (EvPrintError (MsgCaught error)) ;; ret data)
         | _ => None
         end) ;;
  d <- load_local "data" data ;;
  emit (EvPrintStatus (MsgRead (List.length d))) ;;
  emit (EvPrintHexdump d) ;;
  write_file "/var/tmp/BT28" (b2a_hex d).

End Module_.
End GetData.

(** ** Concrete inputs

    A configuration, some buffers and two connections on which the
    statements are evaluated.  The state of these connections is the
    number of reads made so far. *)

Module Sample.
Import Py Fx.

Definition topic_prefix : string := "home/energy".
Definition name : string := "meter1".
Definition id : string := "NES-0042".

(** The 8 bytes of the integers 1000 and 2000. *)
Definition table23 : bytes := flat_map pack_le_i32 [1000; 2000].

(** The 40 bytes of the ten integers of the specification's example. *)
Definition table28 : bytes :=
  flat_map pack_le_i32
    [100; -50; 0; 0; 5000; 6000; 7000; 120000; 121000; 122000].

(** Table 28 cut after its ninth integer. *)
Definition table28_short : bytes := firstn 36 table28.

(** Table 28 with another tenth integer, 10000. *)
Definition table28_other : bytes :=
  firstn 36 table28 ++ pack_le_i32 10000.

(** A meter that answers every read with what was asked of it. *)
Definition meter : TableSource nat := fun n tableid octet offset =>
  if tableid =? 23 then (Ok table23, S n)
  else if tableid =? 28 then (Ok table28, S n)
  else (Ok (repeat x00 (Z.to_nat octet)), S n).

(** A meter whose table 23 cannot be read. *)
Definition meter_without_table23 : TableSource nat :=
  fun n tableid octet offset =>
  if tableid =? 23 then (Raise (C1218ReadTableError "no response"), S n)
  else meter n tableid octet offset.

End Sample.

(** ** More vocabulary and inputs *)

Module Vocabulary.
Import Py Fx.

(** Membership in [sensor_types], as [key in config_details] decides it. *)
Definition is_sensor_key (key : string) : bool :=
  existsb (String.eqb key) GetDataMqtt.sensor_types.

(** A character between space and tilde. *)
Definition printable_char (c : ascii) : bool :=
  ((32 <=? N_of_ascii c) && (N_of_ascii c <=? 126))%N.

Fixpoint printable (s : string) : bool :=
  match s with
  | EmptyString => true
  | String c s' => printable_char c && printable s'
  end.

(** A lowercase hexadecimal digit. *)
Definition is_hex_char (c : ascii) : bool :=
  let n := N_of_ascii c in
  (((48 <=? n) && (n <=? 57)) || ((97 <=? n) && (n <=? 102)))%N.

Fixpoint all_hex (s : string) : bool :=
  match s with
  | EmptyString => true
  | String c s' => is_hex_char c && all_hex s'
  end.

(** A string between double quotes, as it stands in a JSON text when it
    needs no escape. *)
Definition quoted (s : string) : string := dquote +++ s +++ dquote.

(** [s] ends with [suffix]. *)
Definition ends_with (s suffix : string) : Prop :=
  exists pre, s = pre +++ suffix.

(** *** The members of a JSON object, read off its text

    A scan of a JSON text that keeps track of the nesting depth and of
    string literals with their backslash escapes, and collects the
    strings that stand before a colon at depth 1: the names of the
    members of the outermost object, in order. *)

Inductive ScanMode : Type :=
| Outside
| InString (acc : string)
| Escaped (acc : string).

Definition dquote_char : ascii := ascii_of_N 34.

(** [pending] is the string literal just closed, if nothing but spaces
    followed it; [acc] is the text of the literal being read. *)
Fixpoint scan_members (mode : ScanMode) (depth : nat)
  (pending : option string) (text : string) : list string :=
  match text with
  | EmptyString => []
  | String c rest =>
      match mode with
      | InString acc =>
          if Ascii.eqb c dquote_char
          then scan_members Outside depth (Some acc) rest
          else if Ascii.eqb c "\"%char
          then scan_members (Escaped (acc +++ String c EmptyString))
                 depth pending rest
          else scan_members (InString (acc +++ String c EmptyString))
                 depth pending rest
      | Escaped acc =>
          scan_members (InString (acc +++ String c EmptyString))
            depth pending rest
      | Outside =>
          if Ascii.eqb c dquote_char
          then scan_members (InString EmptyString) depth None rest
          else if Ascii.eqb c "{"%char || Ascii.eqb c "["%char
          then scan_members Outside (S depth) None rest
          else if Ascii.eqb c "}"%char || Ascii.eqb c "]"%char
          then scan_members Outside (Nat.pred depth) None rest
          else if Ascii.eqb c ":"%char
          then
            match pending with
            | Some name =>
                if Nat.eqb depth 1
                then name :: scan_members Outside depth None rest
                else scan_members Outside depth None rest
            | None => scan_members Outside depth None rest
            end
          else if Ascii.eqb c " "%char
          then scan_members Outside depth pending rest
          else scan_members Outside depth None rest
      end
  end.

Definition json_members (text : string) : list string :=
  scan_members Outside 0 None text.

(** The text of a literal after more characters have been read. *)
Fixpoint feed (acc s : string) : string :=
  match s with
  | EmptyString => acc
  | String c s' => feed (acc +++ String c EmptyString) s'
  end.

(** The value of a lowercase hexadecimal digit. *)
Definition hex_value (c : ascii) : option N :=
  let n := N_of_ascii c in
  if ((48 <=? n) && (n <=? 57))%N then Some (n - 48)%N
  else if ((97 <=? n) && (n <=? 102))%N then Some (n - 87)%N
  else None.

(** Reading a hexadecimal dump back, as [binascii.a2b_hex] does on
    lowercase digits. *)
Fixpoint a2b_hex (s : string) : option bytes :=
  match s with
  | EmptyString => Some []
  | String c1 (String c2 s') =>
      match hex_value c1, hex_value c2, a2b_hex s' with
      | Some h, Some l, Some rest =>
          match Byte.of_N (16 * h + l) with
          | Some b => Some (b :: rest)
          | None => None
          end
      | _, _, _ => None
      end
  | String _ EmptyString => None
  end.

Definition is_print_error (e : Event) : bool :=
  match e with EvPrintError _ => true | _ => false end.

Definition is_log_warning (e : Event) : bool :=
  match e with EvLogWarning _ => true | _ => false end.

Definition is_read (e : Event) : bool :=
  match e with EvGetTablePart _ _ _ => true | _ => false end.

Definition is_file_write (e : Event) : bool :=
  match e with EvFileWrite _ _ => true | _ => false end.

(** The topic of a publish. *)
Definition topic_of (e : Event) : option string :=
  match e with EvPublish topic _ _ _ => Some topic | _ => None end.

(** A connection whose reads raise nothing but [C1218ReadTableError]. *)
Definition raises_read_errors_only {St} (conn : TableSource St) : Prop :=
  forall s tableid octet offset e s',
    conn s tableid octet offset = (Raise e, s') ->
    exists msg, e = C1218ReadTableError msg.

(** The signed 32-bit range. *)
Definition int32_range (z : Z) : Prop := - 2 ^ 31 <= z < 2 ^ 31.

End Vocabulary.

Module Scenario.
Import Py Fx.

(** A meter whose table 28 cannot be read. *)
Definition meter_without_table28 : TableSource nat :=
  fun n tableid octet offset =>
  if tableid =? 28 then (Raise (C1218ReadTableError "no response"), S n)
  else Sample.meter n tableid octet offset.

(** A link that fails below the C12.18 layer on every read. *)
Definition link_down : TableSource nat :=
  fun n tableid octet offset => (Raise (OtherError "serial timeout"), S n).

(** A meter that answers table 28 with 36 bytes only. *)
Definition meter_short_table28 : TableSource nat :=
  fun n tableid octet offset =>
  if tableid =? 28 then (Ok Sample.table28_short, S n)
  else Sample.meter n tableid octet offset.

(** A topic prefix with a character above 127 and a double quote. *)
Definition odd_prefix : string :=
  "caf" +++ String (ascii_of_N 233) ("/" +++ dquote +++ "energy").

(** A list of keys with one that has no configuration. *)
Definition mixed_keys : list string :=
  ["Fwd_kWh"%string; "humidity"%string; "L1_A"%string].

(** A mapping of two values. *)
Definition two_values : Dict Num :=
  [("fwd_Now"%string, PyInt 1500); ("rev_Now"%string, PyInt 0)].


End Scenario.

(** * Facts *)

Module PyFacts.
Import Py.

Lemma nth_error_unpack_fields (n : nat) :
  forall (buf : bytes) (i : nat),
    (i < n)%nat -> (4 * n <= List.length buf)%nat ->
    nth_error (unpack_fields n buf) i =
    Some (int32_le (nth (4 * i) buf x00) (nth (4 * i + 1) buf x00)
                   (nth (4 * i + 2) buf x00) (nth (4 * i + 3) buf x00)).
Proof.
  induction n as [|n IH]; intros buf i Hi Hlen; [lia|].
  destruct buf as [|b0 [|b1 [|b2 [|b3 rest]]]]; simpl in Hlen; try lia.
  destruct i as [|i].
  - reflexivity.
  - cbn [unpack_fields nth_error].
    rewrite IH by (simpl; lia).
    replace (4 * S i)%nat with (S (S (S (S (4 * i))))) by lia.
    replace (S (S (S (S (4 * i)))) + 1)%nat
      with (S (S (S (S (4 * i + 1))))) by lia.
    replace (S (S (S (S (4 * i)))) + 2)%nat
      with (S (S (S (S (4 * i + 2))))) by lia.
    replace (S (S (S (S (4 * i)))) + 3)%nat
      with (S (S (S (S (4 * i + 3))))) by lia.
    reflexivity.
Qed.

Lemma byteZ_byte_of_Z (z : Z) : byteZ (byte_of_Z z) = z mod 256.
Proof.
  unfold byteZ, byte_of_Z.
  assert (Hb : 0 <= z mod 256 < 256) by (apply Z.mod_pos_bound; lia).
  destruct (Byte.of_N (Z.to_N (z mod 256))) as [b|] eqn:Hof.
  - rewrite (Byte.to_of_N _ Hof). lia.
  - apply Byte.of_N_None_iff in Hof. lia.
Qed.

(** [struct.unpack("<i", struct.pack("<i", z))] is [z] for every [z] of
    32 bits, negative ones included. *)
Lemma unpack_pack_le_i32 (z : Z) (rest : bytes) (n : nat) :
  - 2 ^ 31 <= z < 2 ^ 31 ->
  unpack_fields (S n) (pack_le_i32 z ++ rest) = z :: unpack_fields n rest.
Proof.
  intros Hz. unfold pack_le_i32. cbn [app unpack_fields]. f_equal.
  unfold int32_le. rewrite !byteZ_byte_of_Z.
  change (2 ^ 8) with 256. change (2 ^ 16) with 65536.
  change (2 ^ 24) with 16777216. change (2 ^ 31) with 2147483648 in Hz.
  change (2 ^ 32) with 4294967296.
  assert (Hu : 0 <= z mod 4294967296 < 4294967296)
    by (apply Z.mod_pos_bound; lia).
  assert (Hzu : z mod 4294967296 = z \/ z mod 4294967296 = z + 4294967296).
  { destruct (Z.lt_ge_cases z 0) as [Hneg|Hpos].
    - right. symmetry. apply (Z.mod_unique _ _ (-1)); lia.
    - left. apply Z.mod_small. lia. }
  generalize dependent (z mod 4294967296). intros u Hu Hzu.
  assert (Hsum : u mod 256 + 256 * ((u / 256) mod 256) +
                 65536 * ((u / 65536) mod 256) +
                 16777216 * ((u / 16777216) mod 256) = u).
  { replace (u / 65536) with (u / 256 / 256)
      by (rewrite Z.div_div by lia; reflexivity).
    replace (u / 16777216) with (u / 256 / 256 / 256)
      by (rewrite !Z.div_div by lia; reflexivity).
    pose proof (Z.div_mod u 256 ltac:(lia)).
    pose proof (Z.div_mod (u / 256) 256 ltac:(lia)).
    pose proof (Z.div_mod (u / 256 / 256) 256 ltac:(lia)).
    assert (Hsmall : u / 256 / 256 / 256 < 256).
    { rewrite !Z.div_div by lia. apply Z.div_lt_upper_bound; lia. }
    assert (0 <= u / 256 / 256 / 256).
    { rewrite !Z.div_div by lia. apply Z.div_pos; lia. }
    rewrite (Z.mod_small (u / 256 / 256 / 256) 256) by lia. lia. }
  rewrite Hsum. unfold to_signed32.
  change (2 ^ 31) with 2147483648. change (2 ^ 32) with 4294967296.
  destruct (Z.ltb_spec u 2147483648); lia.
Qed.

Lemma unpack_fields_packed (l : list Z) :
  Forall (fun z => - 2 ^ 31 <= z < 2 ^ 31) l ->
  unpack_fields (List.length l) (flat_map pack_le_i32 l) = l.
Proof.
  induction 1 as [|z l Hz Hl IH]; [reflexivity|].
  cbn [List.length flat_map]. rewrite unpack_pack_le_i32 by exact Hz.
  now rewrite IH.
Qed.

Lemma length_packed (l : list Z) :
  List.length (flat_map pack_le_i32 l) = (4 * List.length l)%nat.
Proof.
  induction l as [|z l IH]; [reflexivity|].
  cbn [flat_map List.length]. rewrite length_app, IH.
  change (List.length (pack_le_i32 z)) with 4%nat. lia.
Qed.

End PyFacts.

Module FxFacts.
Import Py Fx.

Lemma append_assoc (a b c : string) : (a +++ b) +++ c = a +++ (b +++ c).
Proof.
  induction a as [|x a IH]; simpl; [reflexivity|]. now rewrite IH.
Qed.

Lemma last_char_append (a : string) (c : ascii) (b : string) :
  last_char (a +++ String c b) = last_char (String c b).
Proof.
  induction a as [|x a IH]; [reflexivity|].
  change (String x a +++ String c b) with (String x (a +++ String c b)).
  cbn [last_char]. rewrite IH.
  destruct a; reflexivity.
Qed.

Section Events.
Context {St : Type}.

Lemma bind_ok {A B} (m : M St A) (k : A -> M St B) (s s1 : St) (a : A)
  (t1 : list Event) :
  m s = (Ok a, s1, t1) ->
  bind m k s =
  (result_of (k a s1), state_of (k a s1), t1 ++ events_of (k a s1)).
Proof.
  intros H. unfold bind. rewrite H.
  now destruct (k a s1) as [[r s2] t2].
Qed.

Lemma bind_raise {A B} (m : M St A) (k : A -> M St B) (s s1 : St) (e : Exn)
  (t1 : list Event) :
  m s = (Raise e, s1, t1) -> bind m k s = (Raise e, s1, t1).
Proof.
  intros H. unfold bind. now rewrite H.
Qed.

(** *** The broker client *)

Lemma client_publish_accepted (topic : string) (payload : Payload) (qos : Z)
  (retain : bool) (s : St) :
  client_publish_error topic payload qos = None ->
  client_publish topic payload qos retain s =
  (Ok tt, s, [EvPublish topic payload qos retain]).
Proof.
  intros H. unfold client_publish, bind, emit. now rewrite H.
Qed.

Lemma client_publish_refused (topic : string) (payload : Payload) (qos : Z)
  (retain : bool) (s : St) (msg : string) :
  client_publish_error topic payload qos = Some msg ->
  client_publish topic payload qos retain s =
  (Raise (ValueError msg), s, [EvPublish topic payload qos retain]).
Proof.
  intros H. unfold client_publish, bind, emit. now rewrite H.
Qed.

(** A number is accepted on every topic that is. *)
Lemma client_publish_error_num (topic : string) (v : Num) :
  topic_ok topic = true -> client_publish_error topic (PNum v) 0 = None.
Proof.
  unfold topic_ok, client_publish_error. intros H.
  apply andb_prop in H. destruct H as [H Hlen].
  apply andb_prop in H. destruct H as [Hne Hw].
  rewrite Hne. apply negb_true_iff in Hw. rewrite Hw.
  apply N.leb_le in Hlen.
  replace (65535 <? utf8_length topic)%N with false
    by (symmetry; apply N.ltb_ge; exact Hlen).
  reflexivity.
Qed.

Lemma client_publish_error_str (topic p : string) :
  topic_ok topic = true -> payload_too_large (PStr p) = false ->
  client_publish_error topic (PStr p) 0 = None.
Proof.
  unfold topic_ok, client_publish_error. intros H Hp.
  apply andb_prop in H. destruct H as [H Hlen].
  apply andb_prop in H. destruct H as [Hne Hw].
  rewrite Hne, Hp. apply negb_true_iff in Hw. rewrite Hw.
  apply N.leb_le in Hlen.
  replace (65535 <? utf8_length topic)%N with false
    by (symmetry; apply N.ltb_ge; exact Hlen).
  reflexivity.
Qed.

(** *** Computations that leave the connection alone *)

Lemma stateless_ret {A} (a : A) : stateless (St:=St) (ret a).
Proof. now exists (Ok a), []. Qed.

Lemma stateless_emit (e : Event) : stateless (St:=St) (emit e).
Proof. now exists (Ok tt), [e]. Qed.

Lemma stateless_bind {A B} (m : M St A) (k : A -> M St B) :
  stateless m -> (forall a, stateless (k a)) -> stateless (bind m k).
Proof.
  intros (r & t & Hm) Hk. destruct r as [a|e].
  - destruct (Hk a) as (r' & t' & Hka).
    exists r', (t ++ t'). intros s. unfold bind. now rewrite Hm, Hka.
  - exists (Raise e), t. intros s. unfold bind. now rewrite Hm.
Qed.

Lemma stateless_for_each {A} (l : list A) (body : A -> M St unit) :
  (forall x, stateless (body x)) -> stateless (for_each l body).
Proof.
  intros Hb. induction l as [|x l IH]; cbn [for_each].
  - apply stateless_ret.
  - apply stateless_bind; [apply Hb|]. intros _. exact IH.
Qed.

Lemma stateless_client_publish (topic : string) (payload : Payload)
  (qos : Z) (retain : bool) :
  stateless (St:=St) (client_publish topic payload qos retain).
Proof.
  unfold client_publish. apply stateless_bind; [apply stateless_emit|].
  intros _. destruct (client_publish_error topic payload qos).
  - now exists (Raise (ValueError s)), [].
  - apply stateless_ret.
Qed.

End Events.
End FxFacts.

Module GetDataMqttFacts.
Import Py Fx GetDataMqtt PyFacts.

Section Decoder.

Variable ConnState : Type.

Local Abbreviation parse := (parse_input_buffer ConnState).

Lemma nth_pad36 (buf : bytes) (j : nat) :
  nth j (pad36 buf) x00 = nth j buf x00.
Proof.
  unfold pad36. destruct (List.length buf <? 36)%nat; [|reflexivity].
  destruct (Nat.lt_ge_cases j (List.length buf)) as [Hlt|Hge].
  - now apply app_nth1.
  - rewrite app_nth2 by exact Hge. rewrite nth_repeat.
    symmetry. now apply nth_overflow.
Qed.

Lemma length_pad36 (buf : bytes) :
  List.length (pad36 buf) = Nat.max 36 (List.length buf).
Proof.
  unfold pad36. destruct (Nat.ltb_spec (List.length buf) 36) as [H|H].
  - rewrite length_app, repeat_length. lia.
  - lia.
Qed.

(** The padded buffer of a well-sized input unpacks, and the tuple holds
    the integers of the zero-continued input. *)
Lemma unpack_pad36 (buf : bytes) :
  (List.length buf < 36 \/ List.length buf mod 4 = 0)%nat ->
  exists l,
    struct_unpack_le_i32 (List.length (pad36 buf) / 4) (pad36 buf) = Ok l /\
    forall i, (4 * i + 4 <= Nat.max 36 (List.length buf))%nat ->
              tuple_getitem l i = Ok (int32_at buf i).
Proof.
  intros Hsz.
  assert (Hlen : (4 * (List.length (pad36 buf) / 4) =
                  List.length (pad36 buf))%nat).
  { rewrite length_pad36.
    destruct Hsz as [H|H].
    - replace (Nat.max 36 (List.length buf)) with 36%nat by lia. reflexivity.
    - destruct (Nat.le_ge_cases (List.length buf) 36) as [H36|H36].
      + replace (Nat.max 36 (List.length buf)) with 36%nat by lia.
        reflexivity.
      + replace (Nat.max 36 (List.length buf)) with (List.length buf) by lia.
        pose proof (Nat.div_mod_eq (List.length buf) 4). lia. }
  exists (unpack_fields (List.length (pad36 buf) / 4) (pad36 buf)). split.
  - unfold struct_unpack_le_i32. rewrite Hlen, Nat.eqb_refl. reflexivity.
  - intros i Hi. unfold tuple_getitem.
    rewrite nth_error_unpack_fields.
    + unfold int32_at. now rewrite !nth_pad36.
    + rewrite <- length_pad36 in Hi. lia.
    + lia.
Qed.

Lemma parse_table23 (buf : bytes) (s : ConnState) :
  (List.length buf < 36 \/ List.length buf mod 4 = 0)%nat ->
  parse buf 23 s =
  (Ok (decode_spec 23 buf), s,
   [EvPrintStatus (MsgParsed 23 (decode_spec 23 buf))]).
Proof.
  intros Hsz. destruct (unpack_pad36 buf Hsz) as (l & Hl & Hget).
  unfold parse_input_buffer, try_except, bind, lift.
  rewrite Hl. cbn [Z.eqb Pos.eqb].
  rewrite !Hget by lia. reflexivity.
Qed.

Lemma parse_table28 (buf : bytes) (s : ConnState) :
  (40 <= List.length buf)%nat -> (List.length buf mod 4 = 0)%nat ->
  parse buf 28 s =
  (Ok (decode_spec 28 buf), s,
   [EvPrintStatus (MsgParsed 28 (decode_spec 28 buf))]).
Proof.
  intros H40 Hsz.
  destruct (unpack_pad36 buf (or_intror Hsz)) as (l & Hl & Hget).
  unfold parse_input_buffer, try_except, bind, lift.
  rewrite Hl. cbn [Z.eqb Pos.eqb].
  rewrite !Hget by lia. reflexivity.
Qed.

(** Whatever the buffer and the table id, the decoder either returns a
    mapping after one status line, or raises one of three exceptions
    having done nothing. *)
Lemma parse_cases (buf : bytes) (t : Z) (s : ConnState) :
  (exists m, parse buf t s = (Ok m, s, [EvPrintStatus (MsgParsed t m)]) /\
             (t = 23 \/ t = 28) /\ keys m = keys (decode_spec t buf)) \/
  (exists e, parse buf t s = (Raise e, s, []) /\
             (e = StructError \/ e = IndexError \/
              e = UnboundLocalError "data")).
Proof.
  unfold parse_input_buffer, try_except, bind, lift.
  destruct (struct_unpack_le_i32 _ _) as [l|e] eqn:Hl.
  2:{ right. unfold struct_unpack_le_i32 in Hl.
      destruct (Nat.eqb _ _); inversion Hl. eauto. }
  destruct (Z.eqb_spec t 23) as [->|H23].
  { destruct (tuple_getitem l 0) as [v0|e0] eqn:H0.
    2:{ right. unfold tuple_getitem in H0.
        destruct (nth_error l 0); inversion H0. eauto. }
    destruct (tuple_getitem l 1) as [v1|e1] eqn:H1.
    2:{ right. unfold tuple_getitem in H1.
        destruct (nth_error l 1); inversion H1. eauto. }
    left. eexists. split; [reflexivity|]. split; [now left|reflexivity]. }
  destruct (Z.eqb_spec t 28) as [->|H28].
  { repeat
      match goal with
      | |- context [tuple_getitem l ?i] =>
          let H := fresh "H" in
          destruct (tuple_getitem l i) eqn:H;
          [ | right; unfold tuple_getitem in H;
              destruct (nth_error l i); inversion H; eauto ]
      end.
    left. eexists. split; [reflexivity|]. split; [now right|reflexivity]. }
  right. eexists. split; [reflexivity|auto].
Qed.

Lemma int32_at_beyond (buf : bytes) (i : nat) :
  (List.length buf <= 4 * i)%nat -> int32_at buf i = 0.
Proof.
  intros H. unfold int32_at.
  rewrite !(nth_overflow buf x00) by lia. reflexivity.
Qed.

Lemma int32_at_ext (buf buf' : bytes) (i : nat) :
  (forall j, (j < 4 * (i + 1))%nat -> nth j buf' x00 = nth j buf x00) ->
  int32_at buf' i = int32_at buf i.
Proof.
  intros H. unfold int32_at. f_equal; apply H; lia.
Qed.

(** C1 (amended): for table 23 and a buffer shorter than 36 bytes or of a
    length that is a multiple of 4, and for table 28 and a buffer of at
    least 40 bytes whose length is a multiple of 4, decoding does not fail
    and returns the mapping of the field layout; it reads no integer
    beyond index 1 (table 23) or 9 (table 28), and a field whose bytes
    all come from the zero padding has the value zero. *)
Theorem parse_input_buffer_supported (t : Z) (buf : bytes) (s : ConnState) :
  (t = 23 /\ (List.length buf < 36 \/ List.length buf mod 4 = 0)%nat) \/
  (t = 28 /\ (40 <= List.length buf)%nat /\
   (List.length buf mod 4 = 0)%nat) ->
  parse buf t s =
    (Ok (decode_spec t buf), s,
     [EvPrintStatus (MsgParsed t (decode_spec t buf))]) /\
  max_field_index t = (if t =? 23 then 1%nat else 9%nat) /\
  (forall buf' : bytes,
     (forall j, (j < 4 * (max_field_index t + 1))%nat ->
                nth j buf' x00 = nth j buf x00) ->
     decode_spec t buf' = decode_spec t buf) /\
  (forall k i sc,
     In (k, i, sc) (field_layout t) -> (List.length buf <= 4 * i)%nat ->
     dict_get (decode_spec t buf) k =
       Some (if sc =? 1 then PyInt 0 else PyFloat 0)).
Proof.
  intros [[-> Hsz]|[-> [H40 Hsz]]].
  - split; [now apply parse_table23|]. split; [reflexivity|]. split.
    + intros buf' Hsame.
      change (max_field_index 23) with 1%nat in Hsame.
      unfold decode_spec. cbn [field_layout Z.eqb Pos.eqb map fst snd].
      rewrite (int32_at_ext buf buf' 0), (int32_at_ext buf buf' 1)
        by (intros j Hj; apply Hsame; lia).
      reflexivity.
    + intros k i sc Hin Hlen.
      cbn [field_layout Z.eqb Pos.eqb In] in Hin.
      destruct Hin as [Heq|[Heq|[]]]; inversion Heq; subst; clear Heq;
        unfold decode_spec; cbn [field_layout Z.eqb Pos.eqb map fst snd];
        match goal with
        | H : (_ <= 4 * ?i)%nat |- _ => rewrite (int32_at_beyond buf i H)
        end; reflexivity.
  - split; [now apply parse_table28|]. split; [reflexivity|]. split.
    + intros buf' Hsame.
      change (max_field_index 28) with 9%nat in Hsame.
      unfold decode_spec. cbn [field_layout Z.eqb Pos.eqb map fst snd].
      rewrite (int32_at_ext buf buf' 0), (int32_at_ext buf buf' 1),
        (int32_at_ext buf buf' 4), (int32_at_ext buf buf' 5),
        (int32_at_ext buf buf' 6), (int32_at_ext buf buf' 7),
        (int32_at_ext buf buf' 8), (int32_at_ext buf buf' 9)
        by (intros j Hj; apply Hsame; lia).
      reflexivity.
    + intros k i sc Hin Hlen.
      cbn [field_layout Z.eqb Pos.eqb In] in Hin.
      repeat (destruct Hin as [Heq|Hin]; [inversion Heq; subst; lia|]).
      destruct Hin.
Qed.

Lemma int32_at_packed (l : list Z) (i : nat) (z : Z) :
  Forall (fun z => - 2 ^ 31 <= z < 2 ^ 31) l ->
  nth_error l i = Some z ->
  int32_at (flat_map pack_le_i32 l) i = z.
Proof.
  intros Hl Hi.
  assert (Hlt : (i < List.length l)%nat)
    by (apply nth_error_Some; congruence).
  pose proof (nth_error_unpack_fields (List.length l)
                (flat_map pack_le_i32 l) i Hlt) as H.
  rewrite length_packed, unpack_fields_packed, Hi in H by exact Hl.
  specialize (H (Nat.le_refl _)). unfold int32_at. congruence.
Qed.

(** X4: table 23 decodes two packed integers to their thousandths,
    whatever their sign. *)
Lemma parse_table23_packed (v0 v1 : Z) (s : ConnState) :
  Forall (fun z => - 2 ^ 31 <= z < 2 ^ 31) [v0; v1] ->
  parse (flat_map pack_le_i32 [v0; v1]) 23 s =
  (Ok [ ("Fwd_kWh", truediv v0 1000); ("Rev_kWh", truediv v1 1000) ]%string,
   s,
   [EvPrintStatus
      (MsgParsed 23
         [ ("Fwd_kWh", truediv v0 1000);
           ("Rev_kWh", truediv v1 1000) ]%string)]).
Proof.
  intros Hl. rewrite parse_table23 by (rewrite length_packed; cbn; lia).
  unfold decode_spec. cbn [field_layout Z.eqb Pos.eqb map fst snd].
  rewrite (int32_at_packed _ 0 v0 Hl eq_refl),
          (int32_at_packed _ 1 v1 Hl eq_refl).
  reflexivity.
Qed.

(** X5: table 28 decodes ten packed integers: the first two as they
    are, the fifth to the tenth to their thousandths, whatever their
    sign. *)
Lemma parse_table28_packed (v0 v1 v2 v3 v4 v5 v6 v7 v8 v9 : Z)
  (s : ConnState) :
  Forall (fun z => - 2 ^ 31 <= z < 2 ^ 31)
         [v0; v1; v2; v3; v4; v5; v6; v7; v8; v9] ->
  result_of
    (parse
       (flat_map pack_le_i32 [v0; v1; v2; v3; v4; v5; v6; v7; v8; v9])
       28 s) =
  Ok [ ("fwd_Now", PyInt v0); ("rev_Now", PyInt v1);
       ("L1_A", truediv v4 1000); ("L2_A", truediv v5 1000);
       ("L3_A", truediv v6 1000); ("L1_V", truediv v7 1000);
       ("L2_V", truediv v8 1000); ("L3_V", truediv v9 1000) ]%string.
Proof.
  intros Hl.
  rewrite parse_table28 by (rewrite length_packed; cbn; lia).
  unfold decode_spec, result_of.
  cbn [field_layout Z.eqb Pos.eqb map fst snd].
  rewrite (int32_at_packed _ 0 v0 Hl eq_refl),
          (int32_at_packed _ 1 v1 Hl eq_refl),
          (int32_at_packed _ 4 v4 Hl eq_refl),
          (int32_at_packed _ 5 v5 Hl eq_refl),
          (int32_at_packed _ 6 v6 Hl eq_refl),
          (int32_at_packed _ 7 v7 Hl eq_refl),
          (int32_at_packed _ 8 v8 Hl eq_refl),
          (int32_at_packed _ 9 v9 Hl eq_refl).
  reflexivity.
Qed.

(** A table id other than 23 and 28 never gets a mapping: [data] is not
    assigned, and reading it raises. *)
Lemma parse_unknown_table (buf : bytes) (t : Z) (s : ConnState) :
  t <> 23 -> t <> 28 ->
  exists e,
    parse buf t s = (Raise e, s, []) /\
    (e = StructError \/ e = UnboundLocalError "data").
Proof.
  intros H23 H28.
  unfold parse_input_buffer, try_except, bind, lift.
  destruct (struct_unpack_le_i32 _ _) as [l|e] eqn:Hl.
  - destruct (Z.eqb_spec t 23) as [?|_]; [contradiction|].
    destruct (Z.eqb_spec t 28) as [?|_]; [contradiction|].
    eexists. split; [reflexivity|now right].
  - unfold struct_unpack_le_i32 in Hl.
    destruct (Nat.eqb _ _); inversion Hl.
    eexists. split; [reflexivity|now left].
Qed.

(** C4: table 23, the 8 bytes of the integers 1000 and 2000: the mapping
    is [Fwd_kWh: 1.0, Rev_kWh: 2.0]. *)
Theorem parse_table23_example (s : ConnState) :
  let buf := flat_map pack_le_i32 [1000; 2000] in
  buf = [xe8; x03; x00; x00; xd0; x07; x00; x00] /\
  parse buf 23 s =
    (Ok [ ("Fwd_kWh", PyFloat 1); ("Rev_kWh", PyFloat 2) ]%string, s,
     [EvPrintStatus
        (MsgParsed 23
           [ ("Fwd_kWh", PyFloat 1); ("Rev_kWh", PyFloat 2) ]%string)]).
Proof.
  split; reflexivity.
Qed.

(** C5: table 28, the 40 bytes of the ten integers of the example: the
    two powers are the integers themselves, [-50] included, and the six
    phase values are the thousandths. *)
Theorem parse_table28_example (s : ConnState) :
  let buf :=
    flat_map pack_le_i32
      [100; -50; 0; 0; 5000; 6000; 7000; 120000; 121000; 122000] in
  List.length buf = 40%nat /\
  parse buf 28 s =
    (Ok [ ("fwd_Now", PyInt 100); ("rev_Now", PyInt (-50));
          ("L1_A", PyFloat 5); ("L2_A", PyFloat 6); ("L3_A", PyFloat 7);
          ("L1_V", PyFloat 120); ("L2_V", PyFloat 121);
          ("L3_V", PyFloat 122) ]%string, s,
     [EvPrintStatus
        (MsgParsed 28
           [ ("fwd_Now", PyInt 100); ("rev_Now", PyInt (-50));
             ("L1_A", PyFloat 5); ("L2_A", PyFloat 6); ("L3_A", PyFloat 7);
             ("L1_V", PyFloat 120); ("L2_V", PyFloat 121);
             ("L3_V", PyFloat 122) ]%string)]).
Proof.
  split; reflexivity.
Qed.

Lemma keys_decode_spec_in_sensor_types (t : Z) (buf : bytes) :
  incl (keys (decode_spec t buf)) sensor_types.
Proof.
  unfold decode_spec, field_layout, keys.
  destruct (t =? 23); [|destruct (t =? 28)];
    cbn [map fst snd]; intros k Hk; cbn [In] in Hk;
    unfold sensor_types; cbn [In]; intuition auto.
Qed.

Lemma nodup_sensor_types : NoDup sensor_types.
Proof.
  unfold sensor_types.
  repeat (constructor; [cbn [In]; intuition discriminate|]).
  constructor.
Qed.

(** C6: every key of a mapping decoded for table 23 or 28 has a row in
    the catalog [config_details]; the keys decoded for the two tables
    are, together, the ten keys of [sensor_types], which are the keys of
    the catalog. *)
Theorem decoded_keys_in_catalog (s0 : ConnState) :
  (forall t buf s m,
     t = 23 \/ t = 28 -> result_of (parse buf t s) = Ok m ->
     Forall (fun k => exists entry, dict_get config_details k = Some entry)
            (keys m)) /\
  (forall k,
     In k sensor_types <->
     exists t buf m,
       (t = 23 \/ t = 28) /\ result_of (parse buf t s0) = Ok m /\
       In k (keys m)) /\
  keys config_details = sensor_types /\
  List.length sensor_types = 10%nat /\
  NoDup sensor_types.
Proof.
  split; [|split; [|split; [reflexivity|split;
                            [reflexivity|exact nodup_sensor_types]]]].
  - intros t buf s m Ht Hm.
    destruct (parse_cases buf t s) as [(m' & Hp & _ & Hk)|(e & Hp & _)];
      rewrite Hp in Hm; inversion Hm; subst m'.
    rewrite Hk.
    destruct Ht as [-> | ->]; unfold decode_spec, keys;
      cbn [field_layout Z.eqb Pos.eqb map fst snd];
      repeat (constructor; [eexists; reflexivity|]); constructor.
  - intros k. split.
    + intros Hk.
      assert (H40 : (40 <= List.length (repeat x00 40))%nat) by (cbn; lia).
      assert (Hm4 : (List.length (repeat x00 40) mod 4 = 0)%nat)
        by reflexivity.
      unfold sensor_types in Hk. cbn [In] in Hk.
      destruct Hk as [<-|[<-|Hk]].
      1,2: exists 23, (repeat x00 40), (decode_spec 23 (repeat x00 40));
           (split; [now left|]);
           (split; [rewrite (parse_table23 _ s0 (or_intror Hm4)); reflexivity|]);
           cbn; tauto.
      exists 28, (repeat x00 40), (decode_spec 28 (repeat x00 40)).
      split; [now right|].
      split; [rewrite (parse_table28 _ s0 H40 Hm4); reflexivity|].
      cbn. tauto.
    + intros (t & buf & m & Ht & Hm & Hk).
      destruct (parse_cases buf t s0) as [(m' & Hp & _ & Hkeys)|(e & Hp & _)];
        rewrite Hp in Hm; inversion Hm; subst m'.
      rewrite Hkeys in Hk.
      now apply (keys_decode_spec_in_sensor_types t buf).
Qed.

End Decoder.
End GetDataMqttFacts.

Module JsonTextFacts.
Import Py Fx FxFacts Vocabulary.

Lemma ends_with_refl (s : string) : ends_with s s.
Proof. now exists EmptyString. Qed.

Lemma ends_with_String (c : ascii) (s suffix : string) :
  ends_with s suffix -> ends_with (String c s) suffix.
Proof. intros [pre ->]. now exists (String c pre). Qed.

Lemma ends_with_append (a s suffix : string) :
  ends_with s suffix -> ends_with (a +++ s) suffix.
Proof.
  intros [pre ->]. exists (a +++ pre). now rewrite append_assoc.
Qed.

Lemma feed_append (acc a b : string) :
  feed acc (a +++ b) = feed (feed acc a) b.
Proof.
  revert acc. induction a as [|c a IH]; intros acc; [reflexivity|].
  cbn [append feed]. apply IH.
Qed.

(** The scan goes through an escaped character without leaving the
    literal. *)
Lemma scan_escape_char (c : ascii) (acc : string) (depth : nat)
  (pending : option string) (rest : string) :
  scan_members (InString acc) depth pending (escape_char c +++ rest) =
  scan_members (InString (feed acc (escape_char c))) depth pending rest.
Proof.
  destruct c as [[] [] [] [] [] [] [] []]; reflexivity.
Qed.

(** The scan goes through an escaped string to its closing quote. *)
Lemma scan_escaped_string (s : string) :
  forall (acc : string) (depth : nat) (pending : option string)
         (rest : string),
    scan_members (InString acc) depth pending
      (escape_string s +++ String dquote_char rest) =
    scan_members Outside depth (Some (feed acc (escape_string s))) rest.
Proof.
  induction s as [|c s IH]; intros acc depth pending rest.
  - reflexivity.
  - cbn [escape_string]. rewrite append_assoc, scan_escape_char, IH.
    now rewrite feed_append.
Qed.

Lemma concat_snoc (sep : string) (l : list string) (x : string) :
  l <> [] ->
  String.concat sep (l ++ [x]) = String.concat sep l +++ sep +++ x.
Proof.
  induction l as [|y l IH]; [congruence|]. intros _.
  destruct l as [|y' l]; [reflexivity|].
  change (String.concat sep ((y :: y' :: l) ++ [x]))
    with (y +++ sep +++ String.concat sep ((y' :: l) ++ [x])).
  rewrite IH by discriminate.
  change (String.concat sep (y :: y' :: l))
    with (y +++ sep +++ String.concat sep (y' :: l)).
  now rewrite !append_assoc.
Qed.

(** The text of an object with two members or more ends with its last
    member. *)
Lemma json_dumps_object_last (o rest : list (string * Json)) (k : string)
  (v : Json) (suffix : string) :
  rev o = (k, v) :: rest -> rest <> [] ->
  suffix =
    ", " +++ encode_basestring_ascii k +++ ": " +++ json_dumps v +++ "}" ->
  ends_with (json_dumps (JObj o)) suffix.
Proof.
  intros Hrev Hrest ->.
  assert (Ho : o = rev rest ++ [(k, v)]).
  { rewrite <- (rev_involutive o), Hrev. reflexivity. }
  subst o. cbn [json_dumps]. rewrite map_app. cbn [map fst snd].
  rewrite concat_snoc.
  - exists ("{" +++
            String.concat ", "
              (map (fun kv => encode_basestring_ascii (fst kv) +++ ": " +++
                              json_dumps (snd kv)) (rev rest))).
    now rewrite !append_assoc.
  - intros H. apply map_eq_nil in H.
    apply (f_equal (@rev _)) in H. rewrite rev_involutive in H.
    now apply Hrest.
Qed.

Lemma ends_with_trans (s mid suffix : string) :
  ends_with s mid -> ends_with mid suffix -> ends_with s suffix.
Proof.
  intros [p ->] [q ->]. exists (p +++ q). now rewrite append_assoc.
Qed.

End JsonTextFacts.
Module PublisherFacts.
Import Py Fx GetDataMqtt PyFacts FxFacts GetDataMqttFacts.
Import Vocabulary JsonTextFacts.

Section Publisher.

Variables mqtt_topic_prefix meter_name meter_id : string.
Variable connect_outcome : option string.
Variable ConnState : Type.
Variable conn : TableSource ConnState.

Local Abbreviation config_topic := (config_topic_of meter_name).
Local Abbreviation data_topic := (data_topic_of mqtt_topic_prefix meter_name).
Local Abbreviation conforms :=
  (publish_conforms mqtt_topic_prefix meter_name).
Local Abbreviation gen_config :=
  (get_or_create_config mqtt_topic_prefix meter_name meter_id ConnState).
Local Abbreviation payload_of :=
  (discovery_payload mqtt_topic_prefix meter_name meter_id).
Local Abbreviation publish_configs :=
  (publish_initial_configurations mqtt_topic_prefix meter_name meter_id
     ConnState).
Local Abbreviation publish_values :=
  (publish_data mqtt_topic_prefix meter_name ConnState).
Local Abbreviation read_and_process :=
  (read_and_process_data mqtt_topic_prefix meter_name ConnState conn).
Local Abbreviation poll := (run mqtt_topic_prefix meter_name ConnState conn).
Local Abbreviation start :=
  (init mqtt_topic_prefix meter_name meter_id connect_outcome ConnState).
Local Abbreviation cfg_events :=
  (config_events mqtt_topic_prefix meter_name meter_id).
Local Abbreviation events_for :=
  (data_events mqtt_topic_prefix meter_name).

(** *** Topics *)

Lemma last_char_config_topic (key : string) :
  last_char (config_topic key) = Some "g"%char.
Proof.
  unfold config_topic_of. rewrite <- !append_assoc.
  now rewrite last_char_append.
Qed.

Lemma last_char_data_topic (key : string) :
  In key sensor_types -> last_char (data_topic key) <> Some "g"%char.
Proof.
  intros Hk. unfold data_topic_of. rewrite <- !append_assoc.
  unfold sensor_types in Hk. cbn [In] in Hk.
  repeat (destruct Hk as [<-|Hk];
          [rewrite last_char_append; discriminate|]).
  destruct Hk.
Qed.

Lemma config_topic_not_data (topic : string) :
  is_config_topic meter_name topic ->
  is_data_topic mqtt_topic_prefix meter_name topic -> False.
Proof.
  intros (k & _ & ->) (k' & Hk' & Heq).
  apply (last_char_data_topic k' Hk'). rewrite <- Heq.
  apply last_char_config_topic.
Qed.

Lemma config_publish_conforms (key : string) (payload : Payload) :
  In key sensor_types ->
  conforms (EvPublish (config_topic key) payload publish_default_qos true).
Proof.
  intros Hk. cbn [publish_conforms].
  assert (Hc : is_config_topic meter_name (config_topic key))
    by (exists key; now split).
  split; [reflexivity|]. split; split; intros H; auto.
  - discriminate.
  - exfalso. eapply config_topic_not_data; eassumption.
Qed.

Lemma data_publish_conforms (key : string) (payload : Payload) :
  In key sensor_types ->
  conforms (EvPublish (data_topic key) payload 0 false).
Proof.
  intros Hk. cbn [publish_conforms].
  assert (Hd : is_data_topic mqtt_topic_prefix meter_name (data_topic key))
    by (exists key; now split).
  split; [reflexivity|]. split; split; intros H; auto.
  - discriminate.
  - exfalso. eapply config_topic_not_data; eassumption.
Qed.

(** *** The discovery generator *)

Lemma get_or_create_config_eq (key : string) (s : ConnState) :
  result_of (gen_config key s) = Ok (payload_of key) /\
  state_of (gen_config key s) = s.
Proof.
  unfold get_or_create_config, discovery_payload.
  destruct (dict_get config_details key); split; reflexivity.
Qed.

Lemma get_or_create_config_run (key : string) (s : ConnState) :
  gen_config key s =
  (Ok (payload_of key), s,
   match dict_get config_details key with
   | Some entry =>
       [EvPrintStatus
          (MsgConfigCreated key
             (JObj (config_data mqtt_topic_prefix meter_name meter_id
                      key entry)))]
   | None => [EvLogWarning (MsgNoConfig key)]
   end).
Proof.
  unfold get_or_create_config, discovery_payload.
  destruct (dict_get config_details key); reflexivity.
Qed.

(** One key of the discovery pass. *)
Lemma publish_config_step (key : string) (l : list string) (s : ConnState) :
  publish_configs (key :: l) s =
  match payload_of key with
  | Some p =>
      match client_publish_error (config_topic key) (PStr p)
              publish_default_qos with
      | Some msg => (Raise (ValueError msg), s, firstn 2 (cfg_events key))
      | None =>
          (result_of (publish_configs l s), state_of (publish_configs l s),
           cfg_events key ++ events_of (publish_configs l s))
      end
  | None =>
      (result_of (publish_configs l s), state_of (publish_configs l s),
       cfg_events key ++ events_of (publish_configs l s))
  end.
Proof.
  unfold publish_initial_configurations. cbn [for_each].
  unfold config_events, discovery_payload.
  destruct (dict_get config_details key) as [entry|] eqn:Hrow.
  - destruct (client_publish_error _ _ _) as [msg|] eqn:He.
    + apply bind_raise.
      unfold bind at 1. rewrite get_or_create_config_run.
      unfold discovery_payload. rewrite Hrow.
      change (truthy_str (json_dumps (JObj (config_data mqtt_topic_prefix
                meter_name meter_id key entry)))) with true.
      cbn iota. unfold publish, bind at 1.
      now rewrite (client_publish_refused _ _ _ _ _ _ He).
    + erewrite bind_ok; [reflexivity|].
      unfold bind at 1. rewrite get_or_create_config_run.
      unfold discovery_payload. rewrite Hrow.
      change (truthy_str (json_dumps (JObj (config_data mqtt_topic_prefix
                meter_name meter_id key entry)))) with true.
      cbn iota. unfold publish, bind at 1.
      now rewrite (client_publish_accepted _ _ _ _ _ He).
  - erewrite bind_ok; [reflexivity|].
    unfold bind at 1. rewrite get_or_create_config_run.
    unfold discovery_payload. now rewrite Hrow.
Qed.

(** One key whose publish, if any, the client accepts. *)
Lemma publish_config_accepted (key : string) (l : list string)
  (s : ConnState) :
  config_publish_ok mqtt_topic_prefix meter_name meter_id key = true ->
  publish_configs (key :: l) s =
  (result_of (publish_configs l s), state_of (publish_configs l s),
   cfg_events key ++ events_of (publish_configs l s)).
Proof.
  unfold config_publish_ok. intros Hok. rewrite publish_config_step.
  destruct (payload_of key) as [p|]; [|reflexivity].
  apply andb_prop in Hok. destruct Hok as [Ht Hp].
  apply negb_true_iff in Hp.
  unfold publish_default_qos.
  now rewrite (client_publish_error_str _ _ Ht Hp).
Qed.

(** When the client accepts every publish of the pass, the pass does
    for each key what [config_events] says. *)
Lemma publish_configs_eq (l : list string) (s : ConnState) :
  Forall (fun key =>
            config_publish_ok mqtt_topic_prefix meter_name meter_id key =
            true) l ->
  publish_configs l s = (Ok tt, s, flat_map cfg_events l).
Proof.
  induction 1 as [|key l Hk Hl IH]; [reflexivity|].
  rewrite (publish_config_accepted key l s Hk), IH. reflexivity.
Qed.

Lemma stateless_publish_configs (l : list string) :
  stateless (publish_configs l).
Proof.
  unfold publish_initial_configurations.
  apply stateless_for_each. intros key.
  apply stateless_bind.
  - exists (Ok (payload_of key)),
      (match dict_get config_details key with
       | Some entry =>
           [EvPrintStatus
              (MsgConfigCreated key
                 (JObj (config_data mqtt_topic_prefix meter_name meter_id
                          key entry)))]
       | None => [EvLogWarning (MsgNoConfig key)]
       end).
    intros s. apply get_or_create_config_run.
  - intros [p|]; [|apply stateless_ret].
    destruct (truthy_str p); [|apply stateless_ret].
    apply stateless_bind; [apply stateless_client_publish|].
    intros _. apply stateless_emit.
Qed.

(** Whatever the client accepts, the pass returns or raises
    [ValueError], and its events are among those of [config_events]. *)
Lemma publish_configs_cases (l : list string) (s : ConnState) :
  exists r t,
    publish_configs l s = (r, s, t) /\
    (r = Ok tt \/ exists msg, r = Raise (ValueError msg)) /\
    incl t (flat_map cfg_events l).
Proof.
  induction l as [|key l (r & t & IH & Hr & Ht)].
  - exists (Ok tt), []. repeat split; [now left|apply incl_refl].
  - rewrite publish_config_step, IH.
    cbn [result_of state_of events_of fst snd flat_map].
    destruct (payload_of key) as [p|].
    + destruct (client_publish_error _ _ _) as [msg|].
      * eexists. eexists. split; [reflexivity|].
        split; [right; now exists msg|].
        intros e He. apply in_or_app. left.
        revert He. generalize (cfg_events key). intros evs He.
        rewrite <- (firstn_skipn 2 evs). apply in_or_app. now left.
      * eexists. eexists. split; [reflexivity|]. split; [exact Hr|].
        now apply incl_app_app; [apply incl_refl|].
    + eexists. eexists. split; [reflexivity|]. split; [exact Hr|].
      now apply incl_app_app; [apply incl_refl|].
Qed.

(** *** The metric publisher *)

(** One entry whose publish the client accepts. *)
Lemma publish_entry_accepted (kv : string * Num) (d : Dict Num)
  (s : ConnState) :
  data_topic_ok mqtt_topic_prefix meter_name (fst kv) = true ->
  publish_values (kv :: d) s =
  (result_of (publish_values d s), state_of (publish_values d s),
   events_for kv ++ events_of (publish_values d s)).
Proof.
  unfold data_topic_ok, publish_data. intros Hok.
  cbn [for_each].
  erewrite bind_ok; [reflexivity|].
  unfold publish, bind at 1.
  rewrite (client_publish_accepted _ _ _ _ _
             (client_publish_error_num _ (snd kv) Hok)).
  reflexivity.
Qed.

(** An entry whose publish the client refuses ends the loop. *)
Lemma publish_entry_refused (kv : string * Num) (d : Dict Num)
  (s : ConnState) (msg : string) :
  client_publish_error (data_topic (fst kv)) (PNum (snd kv)) 0 = Some msg ->
  publish_values (kv :: d) s =
  (Raise (ValueError msg), s,
   [EvPublish (data_topic (fst kv)) (PNum (snd kv)) 0 false]).
Proof.
  unfold publish_data. intros He. cbn [for_each].
  unfold publish, bind at 1 2.
  now rewrite (client_publish_refused _ _ _ _ _ _ He).
Qed.

(** When the client accepts the topic of every entry, each entry is
    published and logged. *)
Lemma publish_data_eq (d : Dict Num) (s : ConnState) :
  Forall (fun kv =>
            data_topic_ok mqtt_topic_prefix meter_name (fst kv) = true) d ->
  publish_values d s = (Ok tt, s, flat_map events_for d).
Proof.
  induction 1 as [|kv d Hkv Hd IH]; [reflexivity|].
  rewrite (publish_entry_accepted kv d s Hkv), IH. reflexivity.
Qed.

Lemma stateless_publish_data (d : Dict Num) : stateless (publish_values d).
Proof.
  unfold publish_data. apply stateless_for_each. intros kv.
  apply stateless_bind; [apply stateless_client_publish|].
  intros _. apply stateless_emit.
Qed.

(** Whatever the client accepts, [publish_data] returns or raises
    [ValueError], and its events are among those of [data_events]. *)
Lemma publish_data_cases (d : Dict Num) (s : ConnState) :
  exists r t,
    publish_values d s = (r, s, t) /\
    (r = Ok tt \/ exists msg, r = Raise (ValueError msg)) /\
    incl t (flat_map events_for d).
Proof.
  induction d as [|kv d (r & t & IH & Hr & Ht)].
  - exists (Ok tt), []. repeat split; [now left|apply incl_refl].
  - destruct (client_publish_error (data_topic (fst kv)) (PNum (snd kv)) 0)
      as [msg|] eqn:He.
    + rewrite (publish_entry_refused kv d s msg He).
      eexists. eexists. split; [reflexivity|].
      split; [right; now exists msg|].
      intros e [<-|[]]. cbn. tauto.
    + assert (Hstep :
        publish_values (kv :: d) s =
        (result_of (publish_values d s), state_of (publish_values d s),
         events_for kv ++ events_of (publish_values d s))).
      { unfold publish_data. cbn [for_each].
        erewrite bind_ok; [reflexivity|].
        unfold publish, bind at 1.
        now rewrite (client_publish_accepted _ _ _ _ _ He). }
      rewrite Hstep, IH. cbn [result_of state_of events_of fst snd].
      eexists. eexists. split; [reflexivity|]. split; [exact Hr|].
      cbn [flat_map]. intros e He'. apply in_app_or in He'.
      apply in_or_app. destruct He' as [He'|He']; [now left|].
      right. now apply Ht.
Qed.

(** *** One table of the poll cycle *)

Lemma read_and_process_read_error (t o : Z) (s s1 : ConnState)
  (msg : string) :
  conn s t o 0 = (Raise (C1218ReadTableError msg), s1) ->
  read_and_process t o s =
  (Ok tt, s1, [EvGetTablePart t o 0; EvPrintError (MsgCaught msg)]).
Proof.
  intros H. unfold read_and_process_data, try_except, bind, get_table_part.
  rewrite H. reflexivity.
Qed.

(** A table that is read and decoded: what follows is [publish_data],
    whose [ValueError] nothing catches. *)
Lemma read_and_process_published (t o : Z) (s s1 : ConnState)
  (buf : bytes) (m : Dict Num) :
  conn s t o 0 = (Ok buf, s1) ->
  parse_input_buffer ConnState buf t s1 =
    (Ok m, s1, [EvPrintStatus (MsgParsed t m)]) ->
  read_and_process t o s =
  ((if truthy_list m then result_of (publish_values m s1) else Ok tt), s1,
   [EvGetTablePart t o 0; EvPrintHexdump buf;
    EvPrintStatus (MsgRead (List.length buf));
    EvPrintStatus (MsgParsed t m)] ++
   (if truthy_list m then events_of (publish_values m s1) else [])).
Proof.
  intros Hc Hp.
  unfold read_and_process_data, try_except, bind, get_table_part.
  rewrite Hc. cbn [emit]. rewrite Hp.
  destruct m as [|kv m]; [reflexivity|].
  cbn [truthy_list].
  destruct (publish_data_cases (kv :: m) s1)
    as (r & tr & Hpub & [->|[msg ->]] & _); rewrite Hpub; reflexivity.
Qed.

Lemma read_and_process_decoded (t o : Z) (s s1 : ConnState) (buf : bytes)
  (m : Dict Num) :
  conn s t o 0 = (Ok buf, s1) ->
  parse_input_buffer ConnState buf t s1 =
    (Ok m, s1, [EvPrintStatus (MsgParsed t m)]) ->
  Forall (fun kv =>
            data_topic_ok mqtt_topic_prefix meter_name (fst kv) = true) m ->
  read_and_process t o s =
  (Ok tt, s1,
   [EvGetTablePart t o 0; EvPrintHexdump buf;
    EvPrintStatus (MsgRead (List.length buf));
    EvPrintStatus (MsgParsed t m)] ++
   (if truthy_list m then flat_map events_for m else [])).
Proof.
  intros Hc Hp Hok.
  rewrite (read_and_process_published t o s s1 buf m Hc Hp).
  rewrite (publish_data_eq m s1 Hok).
  destruct (truthy_list m); reflexivity.
Qed.

Lemma read_and_process_decode_raises (t o : Z) (s s1 : ConnState)
  (buf : bytes) (e : Exn) :
  conn s t o 0 = (Ok buf, s1) ->
  parse_input_buffer ConnState buf t s1 = (Raise e, s1, []) ->
  (forall msg, e <> C1218ReadTableError msg) ->
  read_and_process t o s =
  (Raise e, s1,
   [EvGetTablePart t o 0; EvPrintHexdump buf;
    EvPrintStatus (MsgRead (List.length buf))]).
Proof.
  intros Hc Hp He.
  unfold read_and_process_data, try_except, bind, get_table_part.
  rewrite Hc. cbn [emit]. rewrite Hp.
  destruct e; try reflexivity. now elim (He msg).
Qed.

Lemma read_and_process_no_read_error (t o : Z) (s : ConnState)
  (msg : string) :
  result_of (read_and_process t o s) <> Raise (C1218ReadTableError msg).
Proof.
  destruct (conn s t o 0) as [[buf|e] s1] eqn:Hc.
  - destruct (parse_cases ConnState buf t s1)
      as [(m & Hp & _)|(e & Hp & He)].
    + rewrite (read_and_process_published _ _ _ _ _ _ Hc Hp).
      cbn [result_of fst]. destruct (truthy_list m); [|discriminate].
      destruct (publish_data_cases m s1)
        as (r & tr & Hpub & [->|[msg' ->]] & _); rewrite Hpub;
        discriminate.
    + rewrite (read_and_process_decode_raises _ _ _ _ _ _ Hc Hp).
      * cbn. destruct He as [->|[->| ->]]; discriminate.
      * intros msg'. destruct He as [->|[->| ->]]; discriminate.
  - unfold read_and_process_data, try_except, bind, get_table_part.
    rewrite Hc. destruct e; cbn; discriminate.
Qed.

Lemma read_and_process_first_event (t o : Z) (s : ConnState) :
  exists rest,
    events_of (read_and_process t o s) = EvGetTablePart t o 0 :: rest.
Proof.
  unfold read_and_process_data, try_except, bind, get_table_part.
  destruct (conn s t o 0) as [[buf|e] s1].
  - cbn [emit].
    destruct (parse_input_buffer ConnState buf t s1) as [[[m|e] s2] tr].
    + destruct (truthy_list m).
      * destruct (publish_values m s2) as [[[u|e] s3] tr'];
          cbn; eauto.
        destruct e; cbn; eauto.
      * cbn; eauto.
    + destruct e; cbn; eauto.
  - destruct e; cbn; eauto.
Qed.

(** For a table id other than 23 and 28 the step publishes nothing, and
    does not return once the table has been read. *)
Lemma read_and_process_unknown_table (t o : Z) (s : ConnState) :
  t <> 23 -> t <> 28 ->
  Forall (fun e => is_publish e = false)
         (events_of (read_and_process t o s)) /\
  (forall buf s1,
     conn s t o 0 = (Ok buf, s1) ->
     exists e, result_of (read_and_process t o s) = Raise e).
Proof.
  intros H23 H28.
  destruct (conn s t o 0) as [[buf|e] s1] eqn:Hc.
  - destruct (parse_unknown_table ConnState buf t s1 H23 H28)
      as (e & Hp & He).
    rewrite (read_and_process_decode_raises _ _ _ _ _ _ Hc Hp)
      by (intros msg'; destruct He as [->| ->]; discriminate).
    split; [repeat constructor|]. intros. now exists e.
  - split; [|discriminate].
    unfold read_and_process_data, try_except, bind, get_table_part.
    rewrite Hc. destruct e; repeat constructor.
Qed.

Lemma read_and_process_conforms (t o : Z) (s : ConnState) :
  Forall conforms (events_of (read_and_process t o s)).
Proof.
  destruct (conn s t o 0) as [[buf|e] s1] eqn:Hc.
  - destruct (parse_cases ConnState buf t s1)
      as [(m & Hp & _ & Hk)|(e & Hp & He)].
    + rewrite (read_and_process_published _ _ _ _ _ _ Hc Hp).
      cbn [events_of snd]. apply Forall_app. split.
      * repeat constructor.
      * destruct (truthy_list m); [|constructor].
        destruct (publish_data_cases m s1) as (r & tr & Hpub & _ & Hin).
        rewrite Hpub. cbn [events_of snd].
        apply Forall_forall. intros e He. apply Hin in He.
        revert e He. apply Forall_forall.
        apply Forall_flat_map, Forall_forall. intros [k v] Hkv.
        assert (Hkey : In k sensor_types).
        { apply (keys_decode_spec_in_sensor_types t buf). rewrite <- Hk.
          unfold keys. now apply (in_map fst _ (k, v)). }
        unfold data_events. cbn [fst snd].
        constructor; [now apply data_publish_conforms|].
        constructor; [exact I|constructor].
    + rewrite (read_and_process_decode_raises _ _ _ _ _ _ Hc Hp).
      * repeat constructor.
      * intros msg'. destruct He as [->|[->| ->]]; discriminate.
  - unfold read_and_process_data, try_except, bind, get_table_part.
    rewrite Hc. destruct e; repeat constructor.
Qed.

Lemma config_events_conform (key : string) :
  In key sensor_types -> Forall conforms (cfg_events key).
Proof.
  intros Hk. unfold config_events.
  destruct (dict_get config_details key).
  - constructor; [exact I|].
    constructor; [now apply config_publish_conforms|].
    constructor; [exact I|constructor].
  - constructor; [exact I|constructor].
Qed.

(** The topics of a decoded mapping are those of sensor keys. *)
Lemma decoded_topics_ok (t : Z) (buf : bytes) :
  data_topics_ok mqtt_topic_prefix meter_name ->
  Forall (fun kv =>
            data_topic_ok mqtt_topic_prefix meter_name (fst kv) = true)
         (decode_spec t buf).
Proof.
  intros Hok. apply Forall_forall. intros [k v] Hkv. cbn [fst].
  apply Hok. apply (keys_decode_spec_in_sensor_types t buf).
  unfold keys. now apply (in_map fst _ (k, v)).
Qed.

Lemma setup_mqtt_run (s : ConnState) :
  setup_mqtt connect_outcome ConnState s =
  (Ok tt, s,
   EvMqttConnect ::
   match connect_outcome with
   | None => [EvPrintStatus MsgMqttConnected]
   | Some err => [EvPrintError (MsgMqttConnectFailed err)]
   end).
Proof.
  unfold setup_mqtt. destruct connect_outcome; reflexivity.
Qed.

Lemma init_run (s : ConnState) :
  start s =
  (result_of (publish_configs sensor_types s),
   state_of (publish_configs sensor_types s),
   events_of (setup_mqtt connect_outcome ConnState s) ++
   events_of (publish_configs sensor_types s)).
Proof.
  unfold init. rewrite (bind_ok _ _ _ _ _ _ (setup_mqtt_run s)).
  now rewrite setup_mqtt_run.
Qed.

(** C3: when the read of table 23 raises [C1218ReadTableError], [run]
    logs it and goes on with table 28: what [run] does is what the read
    of table 23 did followed by the whole of [read_and_process_data] for
    table 28, whose first step is the read; no [C1218ReadTableError]
    leaves [run]; and when that read gives 40 bytes and the broker
    client accepts the data topics, the eight values are decoded and
    published and [run] returns. *)
Theorem run_continues_after_table23_read_error (s s1 : ConnState)
  (msg : string) :
  conn s 23 8 0 = (Raise (C1218ReadTableError msg), s1) ->
  poll s =
    (result_of (read_and_process 28 40 s1),
     state_of (read_and_process 28 40 s1),
     [EvGetTablePart 23 8 0; EvPrintError (MsgCaught msg)] ++
     events_of (read_and_process 28 40 s1)) /\
  (exists rest,
     events_of (poll s) =
     [EvGetTablePart 23 8 0; EvPrintError (MsgCaught msg);
      EvGetTablePart 28 40 0] ++ rest) /\
  (forall msg', result_of (poll s) <> Raise (C1218ReadTableError msg')) /\
  (forall (buf : bytes) (s2 : ConnState),
     conn s1 28 40 0 = (Ok buf, s2) -> List.length buf = 40%nat ->
     data_topics_ok mqtt_topic_prefix meter_name ->
     poll s =
     (Ok tt, s2,
      [EvGetTablePart 23 8 0; EvPrintError (MsgCaught msg);
       EvGetTablePart 28 40 0; EvPrintHexdump buf;
       EvPrintStatus (MsgRead 40);
       EvPrintStatus (MsgParsed 28 (decode_spec 28 buf))] ++
      flat_map events_for (decode_spec 28 buf))).
Proof.
  intros H23.
  assert (Hrun :
    poll s =
    (result_of (read_and_process 28 40 s1),
     state_of (read_and_process 28 40 s1),
     [EvGetTablePart 23 8 0; EvPrintError (MsgCaught msg)] ++
     events_of (read_and_process 28 40 s1))).
  { unfold run.
    now rewrite (bind_ok _ _ _ _ _ _
                   (read_and_process_read_error 23 8 s s1 msg H23)). }
  split; [exact Hrun|]. split; [|split].
  - destruct (read_and_process_first_event 28 40 s1) as [rest Hrest].
    exists rest. rewrite Hrun. cbn [events_of snd]. now rewrite Hrest.
  - intros msg'. rewrite Hrun. cbn [result_of fst].
    apply read_and_process_no_read_error.
  - intros buf s2 H28 Hlen Hok. rewrite Hrun.
    assert (Hp := parse_table28 ConnState buf s2).
    rewrite Hlen in Hp. specialize (Hp (Nat.le_refl 40) eq_refl).
    rewrite (read_and_process_decoded _ _ _ _ _ _ H28 Hp
               (decoded_topics_ok 28 buf Hok)), Hlen.
    reflexivity.
Qed.

(** C7: every publish of the module has QoS 0, is retained exactly when
    its topic is a discovery topic and unretained exactly when its topic
    is a data topic.  [__init__] publishes, when the broker client
    accepts them, one retained payload per sensor key on
    [homeassistant/sensor/<meterName>_<key>/config];
    [publish_data] publishes each value unretained on
    [<prefix>/<meterName>/<key>]. *)
Theorem publishes_qos0_retain_config_only (s : ConnState) :
  Forall conforms (events_of (start s)) /\
  Forall conforms (events_of (poll s)) /\
  (config_publishes_ok mqtt_topic_prefix meter_name meter_id ->
   filter is_publish (events_of (start s)) =
     flat_map
       (fun key =>
          match payload_of key with
          | Some p => [EvPublish (config_topic key) (PStr p) 0 true]
          | None => []
          end) sensor_types) /\
  (forall (l : list string) (e : Event),
     In e (events_of (publish_configs l s)) -> is_publish e = true ->
     exists key p, In key l /\ e = EvPublish (config_topic key) p 0 true) /\
  (forall (d : Dict Num) (e : Event),
     In e (events_of (publish_values d s)) -> is_publish e = true ->
     exists key v,
       In (key, v) d /\ e = EvPublish (data_topic key) (PNum v) 0 false).
Proof.
  split; [|split; [|split; [|split]]].
  - rewrite init_run, setup_mqtt_run. cbn [events_of snd].
    apply Forall_app. split.
    + destruct connect_outcome; repeat constructor.
    + destruct (publish_configs_cases sensor_types s)
        as (r & t & Hpc & _ & Hin).
      rewrite Hpc. apply Forall_forall. intros e He. apply Hin in He.
      revert e He. apply Forall_forall.
      apply Forall_flat_map, Forall_forall. intros key Hk.
      now apply config_events_conform.
  - unfold run, bind.
    pose proof (read_and_process_conforms 23 8 s) as H1.
    destruct (read_and_process 23 8 s) as [[[u|e] s1] t1];
      cbn [events_of snd] in *; [|exact H1].
    pose proof (read_and_process_conforms 28 40 s1) as H2.
    destruct (read_and_process 28 40 s1) as [[r s2] t2];
      cbn [events_of snd] in *.
    apply Forall_app. now split.
  - intros Hok. rewrite init_run, setup_mqtt_run.
    rewrite (publish_configs_eq sensor_types s)
      by (apply Forall_forall; exact Hok).
    cbn [events_of snd]. destruct connect_outcome; reflexivity.
  - intros l e He Hpub.
    destruct (publish_configs_cases l s) as (r & t & Hpc & _ & Hin).
    rewrite Hpc in He. cbn [events_of snd] in He. apply Hin in He.
    apply in_flat_map in He.
    destruct He as (key & Hkey & He). unfold config_events in He.
    destruct (dict_get config_details key); cbn [In] in He;
      repeat (destruct He as [<-|He]; [try discriminate Hpub|]);
      try contradiction.
    eauto.
  - intros d e He Hpub.
    destruct (publish_data_cases d s) as (r & t & Hpd & _ & Hin).
    rewrite Hpd in He. cbn [events_of snd] in He. apply Hin in He.
    apply in_flat_map in He.
    destruct He as ([key v] & Hkv & He). unfold data_events in He.
    cbn [In fst snd] in He.
    repeat (destruct He as [<-|He]; [try discriminate Hpub|]);
      try contradiction.
    eauto.
Qed.

(** C8: the discovery payload of a key is a function of the key, the
    catalog and the configuration only: [get_or_create_config] returns
    [discovery_payload key] in every state, so two invocations, in
    whatever states, and two invocations in a row, return the same
    string; and [publish_initial_configurations] emits the same events
    wherever it is run, twice over when it is run twice in a row and the
    first run returns. *)
Theorem discovery_payload_deterministic (key : string) (s1 s2 : ConnState) :
  result_of (gen_config key s1) = Ok (payload_of key) /\
  result_of (gen_config key s1) = result_of (gen_config key s2) /\
  result_of
    ((p1 <- gen_config key ;; p2 <- gen_config key ;; ret (p1, p2)) s1) =
    Ok (payload_of key, payload_of key) /\
  (forall l : list string,
     events_of (publish_configs l s1) = events_of (publish_configs l s2) /\
     events_of ((publish_configs l ;; publish_configs l) s1) =
       match result_of (publish_configs l s1) with
       | Ok _ =>
           events_of (publish_configs l s1) ++
           events_of (publish_configs l s1)
       | Raise _ => events_of (publish_configs l s1)
       end).
Proof.
  split; [apply get_or_create_config_eq|].
  split.
  { transitivity (Ok (A:=option string) (payload_of key));
      [|symmetry]; apply get_or_create_config_eq. }
  split.
  { unfold get_or_create_config, discovery_payload, bind.
    destruct (dict_get config_details key); reflexivity. }
  intros l. destruct (stateless_publish_configs l) as (r & t & Hpc).
  split.
  - now rewrite !Hpc.
  - destruct r as [u|e].
    + rewrite (bind_ok _ _ _ _ _ _ (Hpc s1)), !Hpc. reflexivity.
    + rewrite (bind_raise _ _ _ _ _ _ (Hpc s1)), !Hpc. reflexivity.
Qed.

Ltac payload_members :=
  unfold json_members; cbn;
  repeat (rewrite ?append_assoc; cbn; rewrite scan_escaped_string; cbn);
  reflexivity.

Ltac payload_last_member :=
  eapply json_dumps_object_last; [reflexivity|discriminate|reflexivity].

(** C10: the payloads of [L1_A], [L2_A] and [L3_A] are the serialised
    [data] of their catalog rows, and that [data] has no [device_class]
    field: whatever the configuration, the members of the payload text
    are the eight from [device] to [platform], and the text ends with
    the member [platform].  The [data] of each of the other seven keys
    has a [device_class] field, the device class of its row: the payload
    text has it as ninth member, and ends with it. *)
Theorem amperage_payloads_have_no_device_class (s : ConnState) :
  Forall
    (fun key =>
       exists entry p,
         dict_get config_details key = Some entry /\
         result_of (gen_config key s) = Ok (Some p) /\
         p = json_dumps (JObj (config_data mqtt_topic_prefix
                                 meter_name meter_id key entry)) /\
         dict_get (config_data mqtt_topic_prefix meter_name meter_id
                     key entry) "device_class" = None /\
         json_members p =
           [ "device"; "name"; "unit_of_measurement"; "state_topic";
             "unique_id"; "state_class"; "icon"; "platform" ]%string /\
         ends_with p (quoted "platform" +++ ": " +++ quoted "mqtt" +++ "}"))
    [ "L1_A"; "L2_A"; "L3_A" ]%string /\
  Forall
    (fun key =>
       exists entry device_class p,
         dict_get config_details key = Some entry /\
         snd entry = Some device_class /\
         result_of (gen_config key s) = Ok (Some p) /\
         p = json_dumps (JObj (config_data mqtt_topic_prefix
                                 meter_name meter_id key entry)) /\
         dict_get (config_data mqtt_topic_prefix meter_name meter_id
                     key entry) "device_class" = Some (JStr device_class) /\
         json_members p =
           [ "device"; "name"; "unit_of_measurement"; "state_topic";
             "unique_id"; "state_class"; "icon"; "platform";
             "device_class" ]%string /\
         ends_with p
           (", " +++ quoted "device_class" +++ ": " +++
            quoted device_class +++ "}"))
    [ "Fwd_kWh"; "Rev_kWh"; "fwd_Now"; "rev_Now";
      "L1_V"; "L2_V"; "L3_V" ]%string.
Proof.
  split.
  - repeat (constructor;
            [eexists; eexists;
             split; [reflexivity|];
             split; [reflexivity|];
             split; [reflexivity|];
             split; [reflexivity|];
             split;
               [payload_members
               |eapply ends_with_trans;
                  [payload_last_member|now exists ", "%string]]|]).
    constructor.
  - repeat (constructor;
            [eexists; eexists; eexists;
             split; [reflexivity|];
             split; [reflexivity|];
             split; [reflexivity|];
             split; [reflexivity|];
             split; [reflexivity|];
             split; [payload_members|payload_last_member]|]).
    constructor.
Qed.

End Publisher.
End PublisherFacts.

(** ** The statements on concrete inputs *)

Module Evaluated.
Import Py Fx GetDataMqtt GetDataMqttFacts PublisherFacts.

(** C1, as stated, fails: for table 28 the decoder reads the integer of
    index 9, which a buffer padded to 36 bytes does not have.  An empty
    buffer and a 36-byte buffer make it raise [IndexError], which the
    handler for [ValueError] does not catch; and two 40-byte buffers that
    agree on their first 36 bytes decode to different mappings.  A
    buffer of 37 bytes makes [struct.unpack] raise for either table. *)
Lemma parse_table28_reads_index_9 :
  parse_input_buffer nat [] 28 0%nat = (Raise IndexError, 0%nat, []) /\
  parse_input_buffer nat Sample.table28_short 28 0%nat =
    (Raise IndexError, 0%nat, []) /\
  parse_input_buffer nat (repeat x00 37) 23 0%nat =
    (Raise StructError, 0%nat, []) /\
  ~ (forall (t : Z) (buf : bytes),
       t = 23 \/ t = 28 ->
       exists m, result_of (parse_input_buffer nat buf t 0%nat) = Ok m) /\
  firstn 36 Sample.table28 = firstn 36 Sample.table28_other /\
  (exists m m',
     result_of (parse_input_buffer nat Sample.table28 28 0%nat) = Ok m /\
     result_of (parse_input_buffer nat Sample.table28_other 28 0%nat) =
       Ok m' /\
     dict_get m "L3_V" = Some (PyFloat 122) /\
     dict_get m' "L3_V" = Some (PyFloat 10)).
Proof.
  split; [reflexivity|]. split; [reflexivity|]. split; [reflexivity|].
  split.
  - intros H. destruct (H 28 [] (or_intror eq_refl)) as [m Hm].
    discriminate Hm.
  - split; [reflexivity|].
    eexists. eexists. repeat split; reflexivity.
Qed.

Lemma parse_input_buffer_supported_witness :
  (23 = 23 /\
   (List.length [xe8; x03] < 36 \/ List.length [xe8; x03] mod 4 = 0)%nat) /\
  parse_input_buffer nat [xe8; x03] 23 0%nat =
    (Ok (decode_spec 23 [xe8; x03]), 0%nat,
     [EvPrintStatus (MsgParsed 23 (decode_spec 23 [xe8; x03]))]) /\
  dict_get (decode_spec 23 [xe8; x03]) "Fwd_kWh" = Some (PyFloat 1) /\
  dict_get (decode_spec 23 [xe8; x03]) "Rev_kWh" = Some (PyFloat 0).
Proof.
  assert (H : 23 = 23 /\
              (List.length [xe8; x03] < 36 \/
               List.length [xe8; x03] mod 4 = 0)%nat).
  { split; [reflexivity|]. left. cbn. lia. }
  split; [exact H|].
  split; [|split; reflexivity].
  exact (proj1 (parse_input_buffer_supported nat 23 [xe8; x03] 0%nat
                  (or_introl H))).
Defined.

(** C2, on the code: for the table id 99 and the empty buffer the decoder
    returns no mapping; [data] was never assigned, so the status line
    raises [UnboundLocalError], which leaves [parse_input_buffer] and
    [read_and_process_data]; nothing is published. *)
Theorem parse_unknown_table_raises :
  parse_input_buffer nat [] 99 0%nat =
    (Raise (UnboundLocalError "data"), 0%nat, []) /\
  read_and_process_data Sample.topic_prefix Sample.name nat Sample.meter
    99 8 0%nat =
    (Raise (UnboundLocalError "data"), 1%nat,
     [EvGetTablePart 99 8 0; EvPrintHexdump (repeat x00 8);
      EvPrintStatus (MsgRead 8)]).
Proof.
  split; reflexivity.
Qed.

(** On the sample configuration, the serialised payload of [L1_A] does
    not mention [device_class], and the payload of [L1_V] does. *)
Lemma sample_payloads_device_class :
  (exists p,
     discovery_payload Sample.topic_prefix Sample.name Sample.id "L1_A" =
       Some p /\
     String.index 0 "device_class" p = None) /\
  (exists p n,
     discovery_payload Sample.topic_prefix Sample.name Sample.id "L1_V" =
       Some p /\
     String.index 0 "device_class" p = Some n).
Proof.
  split.
  - eexists. split; reflexivity.
  - eexists. eexists. split; reflexivity.
Qed.

(** The broker client accepts the topics and the payloads of the sample
    configuration. *)
Lemma sample_data_topics_ok :
  data_topics_ok Sample.topic_prefix Sample.name.
Proof.
  intros key Hk. unfold sensor_types in Hk. cbn [In] in Hk.
  repeat (destruct Hk as [<-|Hk]; [reflexivity|]). destruct Hk.
Qed.

Lemma sample_config_publishes_ok :
  config_publishes_ok Sample.topic_prefix Sample.name Sample.id.
Proof.
  intros key Hk. unfold sensor_types in Hk. cbn [In] in Hk.
  repeat (destruct Hk as [<-|Hk]; [vm_compute; reflexivity|]). destruct Hk.
Qed.

Lemma run_continues_after_table23_read_error_witness :
  Sample.meter_without_table23 0%nat 23 8 0 =
    (Raise (C1218ReadTableError "no response"), 1%nat) /\
  run Sample.topic_prefix Sample.name nat Sample.meter_without_table23
    0%nat =
    (Ok tt, 2%nat,
     [EvGetTablePart 23 8 0; EvPrintError (MsgCaught "no response");
      EvGetTablePart 28 40 0; EvPrintHexdump Sample.table28;
      EvPrintStatus (MsgRead 40);
      EvPrintStatus (MsgParsed 28 (decode_spec 28 Sample.table28))] ++
     flat_map (data_events Sample.topic_prefix Sample.name)
              (decode_spec 28 Sample.table28)).
Proof.
  split; [reflexivity|].
  apply (proj2 (proj2 (proj2
           (run_continues_after_table23_read_error
              Sample.topic_prefix Sample.name nat
              Sample.meter_without_table23 0%nat 1%nat "no response"
              eq_refl))));
    first [reflexivity | exact sample_data_topics_ok].
Defined.

Lemma publishes_qos0_retain_config_only_witness :
  config_publishes_ok Sample.topic_prefix Sample.name Sample.id /\
  List.length
    (filter is_publish
       (events_of (init Sample.topic_prefix Sample.name Sample.id None nat
                     0%nat))) = 10%nat.
Proof.
  split; [exact sample_config_publishes_ok|].
  rewrite (proj1 (proj2 (proj2
             (publishes_qos0_retain_config_only Sample.topic_prefix
                Sample.name Sample.id None nat Sample.meter 0%nat)))
             sample_config_publishes_ok).
  reflexivity.
Defined.

End Evaluated.

(** ** get_data.py *)

Module GetDataFacts.
Import Py Fx FxFacts.

Section Run.

Variable ConnState : Type.
Variable conn : TableSource ConnState.

Local Abbreviation dump := (GetData.run ConnState conn).

(** C9: in [get_data.py], when the read of table 23 raises
    [C1218ReadTableError], the handler logs it and leaves [data]
    unassigned; [len(data)] then raises [UnboundLocalError], which ends
    [run]: table 28 is not read and no file is written. *)
Theorem run_unbound_data_after_table23_read_error (s s1 : ConnState)
  (msg : string) :
  conn s 23 8 0 = (Raise (C1218ReadTableError msg), s1) ->
  dump s =
    (Raise (UnboundLocalError "data"), s1,
     [EvGetTablePart 23 8 0; EvPrintError (MsgCaught msg)]) /\
  (forall octet offset,
     ~ In (EvGetTablePart 28 octet offset) (events_of (dump s))) /\
  (forall path content,
     ~ In (EvFileWrite path content) (events_of (dump s))).
Proof.
  intros H23.
  assert (Hrun :
    dump s =
    (Raise (UnboundLocalError "data"), s1,
     [EvGetTablePart 23 8 0; EvPrintError (MsgCaught msg)])).
  { unfold GetData.run, try_except, bind, get_table_part.
    rewrite H23. reflexivity. }
  split; [exact Hrun|]. rewrite Hrun. cbn [events_of snd In].
  split; intros a b [H|[H|[]]]; discriminate H.
Qed.

(** X18: when both reads succeed, [run] reads table 23 and then table
    28 and writes the hexadecimal text of each to its own file. *)
Lemma run_both_tables (s s1 s2 : ConnState) (b23 b28 : bytes) :
  conn s 23 8 0 = (Ok b23, s1) ->
  conn s1 28 40 0 = (Ok b28, s2) ->
  dump s =
    (Ok tt, s2,
     [EvGetTablePart 23 8 0; EvPrintStatus (MsgRead (List.length b23));
      EvPrintHexdump b23; EvFileWrite "/var/tmp/BT23" (b2a_hex b23);
      EvGetTablePart 28 40 0; EvPrintStatus (MsgRead (List.length b28));
      EvPrintHexdump b28; EvFileWrite "/var/tmp/BT28" (b2a_hex b28)]).
Proof.
  intros H23 H28.
  unfold GetData.run, GetData.write_file, try_except, bind, get_table_part.
  rewrite H23. cbn [ret load_local emit]. rewrite H28. reflexivity.
Qed.

End Run.

Lemma run_unbound_data_witness :
  Sample.meter_without_table23 0%nat 23 8 0 =
    (Raise (C1218ReadTableError "no response"), 1%nat) /\
  GetData.run nat Sample.meter_without_table23 0%nat =
    (Raise (UnboundLocalError "data"), 1%nat,
     [EvGetTablePart 23 8 0; EvPrintError (MsgCaught "no response")]).
Proof.
  split; [reflexivity|].
  exact (proj1 (run_unbound_data_after_table23_read_error
                  nat Sample.meter_without_table23 0%nat 1%nat
                  "no response" eq_refl)).
Defined.

End GetDataFacts.

(** * More facts *)

(** ** The decoder, input by input *)

Module DecoderExtras.
Import Py Fx GetDataMqtt PyFacts GetDataMqttFacts Vocabulary.

Lemma byteZ_bounds (b : byte) : 0 <= byteZ b <= 255.
Proof.
  unfold byteZ. pose proof (Byte.to_N_bounded b). lia.
Qed.

Lemma int32_le_range (b0 b1 b2 b3 : byte) :
  int32_range (int32_le b0 b1 b2 b3).
Proof.
  unfold int32_range, int32_le, to_signed32.
  pose proof (byteZ_bounds b0). pose proof (byteZ_bounds b1).
  pose proof (byteZ_bounds b2). pose proof (byteZ_bounds b3).
  change (2 ^ 8) with 256. change (2 ^ 16) with 65536.
  change (2 ^ 24) with 16777216. change (2 ^ 31) with 2147483648.
  change (2 ^ 32) with 4294967296.
  destruct (Z.ltb_spec
              (byteZ b0 + 256 * byteZ b1 + 65536 * byteZ b2 +
               16777216 * byteZ b3) 2147483648); lia.
Qed.

Lemma length_unpack_fields_le (n : nat) :
  forall buf : bytes, (List.length (unpack_fields n buf) <= n)%nat.
Proof.
  induction n as [|n IH]; intros buf; [cbn; lia|].
  destruct buf as [|b0 [|b1 [|b2 [|b3 rest]]]]; cbn [unpack_fields];
    try (cbn; lia).
  cbn [List.length]. specialize (IH rest). lia.
Qed.

Section Decoder.

Variable ConnState : Type.

Local Abbreviation parse := (parse_input_buffer ConnState).

(** What [struct.unpack] gives on the padded buffer, and what an index
    into it gives. *)
Lemma unpacked_getitem (buf : bytes) (l : list Z) (i : nat) :
  struct_unpack_le_i32 (List.length (pad36 buf) / 4) (pad36 buf) = Ok l ->
  tuple_getitem l i =
  if (4 * i + 4 <=? Nat.max 36 (List.length buf))%nat
  then Ok (int32_at buf i) else Raise IndexError.
Proof.
  remember (List.length (pad36 buf) / 4)%nat as n eqn:Hn. clear Hn.
  unfold struct_unpack_le_i32.
  destruct (Nat.eqb_spec (List.length (pad36 buf)) (4 * n)) as [Hlen|];
    [|discriminate].
  intros Hl. injection Hl as <-.
  pose proof (length_pad36 buf) as Hpad.
  unfold tuple_getitem.
  destruct (Nat.leb_spec (4 * i + 4) (Nat.max 36 (List.length buf)))
    as [Hi|Hi].
  - rewrite nth_error_unpack_fields by lia.
    unfold int32_at. now rewrite !nth_pad36.
  - pose proof (length_unpack_fields_le n (pad36 buf)) as Hle.
    destruct (nth_error _ i) eqn:Hnth; [|reflexivity].
    assert (i < List.length (unpack_fields n (pad36 buf)))%nat
      by (apply nth_error_Some; congruence).
    lia.
Qed.

(** Whether [struct.unpack] accepts the padded buffer. *)
Lemma unpack_padded_outcome (buf : bytes) :
  struct_unpack_le_i32 (List.length (pad36 buf) / 4) (pad36 buf) =
  if ((36 <=? List.length buf) && negb (List.length buf mod 4 =? 0))%nat
  then Raise StructError
  else Ok (unpack_fields (List.length (pad36 buf) / 4) (pad36 buf)).
Proof.
  unfold struct_unpack_le_i32. rewrite length_pad36.
  pose proof (Nat.div_mod_eq (Nat.max 36 (List.length buf)) 4) as Hdm.
  pose proof (Nat.div_mod_eq (List.length buf) 4) as Hdm'.
  pose proof (Nat.mod_upper_bound (List.length buf) 4 ltac:(lia)) as Hub.
  destruct (Nat.leb_spec 36 (List.length buf)) as [H36|H36];
    destruct (Nat.eqb_spec (List.length buf mod 4) 0) as [Hm|Hm];
    cbn [andb negb].
  - replace (Nat.max 36 (List.length buf)) with (List.length buf) by lia.
    destruct (Nat.eqb_spec (List.length buf)
                (4 * (List.length buf / 4))); [reflexivity|lia].
  - replace (Nat.max 36 (List.length buf)) with (List.length buf) by lia.
    destruct (Nat.eqb_spec (List.length buf)
                (4 * (List.length buf / 4))); [lia|reflexivity].
  - replace (Nat.max 36 (List.length buf)) with 36%nat by lia. reflexivity.
  - replace (Nat.max 36 (List.length buf)) with 36%nat by lia. reflexivity.
Qed.

(** A buffer of 36 bytes or more whose length is not a multiple of 4 is
    refused by [struct.unpack], before the table id is looked at. *)
Lemma parse_bad_length (buf : bytes) (t : Z) (s : ConnState) :
  (36 <= List.length buf)%nat -> (List.length buf mod 4 <> 0)%nat ->
  parse buf t s = (Raise StructError, s, []).
Proof.
  intros H36 Hm. pose proof (unpack_padded_outcome buf) as Hu.
  replace (36 <=? List.length buf)%nat with true in Hu
    by (symmetry; apply Nat.leb_le; lia).
  replace (List.length buf mod 4 =? 0)%nat with false in Hu
    by (symmetry; apply Nat.eqb_neq; lia).
  unfold parse_input_buffer, try_except, bind, lift.
  rewrite Hu. reflexivity.
Qed.

(** Table 28 on a buffer of at most 36 bytes: the tuple has nine
    integers and [int32_values[9]] raises. *)
Lemma parse_table28_short (buf : bytes) (s : ConnState) :
  (List.length buf <= 36)%nat ->
  parse buf 28 s = (Raise IndexError, s, []).
Proof.
  intros H36. pose proof (unpack_padded_outcome buf) as Hu.
  assert (Hok : ((36 <=? List.length buf) &&
                 negb (List.length buf mod 4 =? 0))%nat = false).
  { destruct (Nat.leb_spec 36 (List.length buf)); [|reflexivity].
    replace (List.length buf) with 36%nat by lia. reflexivity. }
  rewrite Hok in Hu.
  assert (Hmax : Nat.max 36 (List.length buf) = 36%nat) by lia.
  unfold parse_input_buffer, try_except, bind, lift.
  rewrite Hu. cbn [Z.eqb Pos.eqb].
  rewrite !(unpacked_getitem buf _ _ Hu), Hmax. reflexivity.
Qed.

(** The three outcomes of the decoder on table 23 or 28. *)
Lemma parse_supported_cases (buf : bytes) (t : Z) (s : ConnState) :
  t = 23 \/ t = 28 ->
  parse buf t s =
    (Ok (decode_spec t buf), s,
     [EvPrintStatus (MsgParsed t (decode_spec t buf))]) \/
  parse buf t s = (Raise StructError, s, []) \/
  (t = 28 /\ (List.length buf <= 36)%nat /\
   parse buf t s = (Raise IndexError, s, [])).
Proof.
  intros Ht.
  destruct (Nat.le_gt_cases 36 (List.length buf)) as [H36|H36];
    destruct (Nat.eq_dec (List.length buf mod 4) 0) as [Hm|Hm].
  - destruct Ht as [-> | ->].
    + left. apply parse_table23. now right.
    + destruct (Nat.le_gt_cases 40 (List.length buf)) as [H40|H40].
      * left. now apply parse_table28.
      * right. right. pose proof (Nat.div_mod_eq (List.length buf) 4).
        split; [reflexivity|]. split; [lia|].
        apply parse_table28_short. lia.
  - right. left. now apply parse_bad_length.
  - destruct Ht as [-> | ->].
    + left. apply parse_table23. now left.
    + right. right. split; [reflexivity|]. split; [lia|].
      apply parse_table28_short. lia.
  - destruct Ht as [-> | ->].
    + left. apply parse_table23. now left.
    + right. right. split; [reflexivity|]. split; [lia|].
      apply parse_table28_short. lia.
Qed.

(** X1: what [parse_input_buffer] does is decided by the table id and
    the length [n] of the buffer.  With [n >= 36] not a multiple of 4 it
    raises [struct.error], whatever the table.  Otherwise table 23 is
    decoded; table 28 is decoded when [n >= 40] and raises [IndexError]
    when not; any other table id raises [UnboundLocalError].  A raise
    comes before anything is logged. *)
Theorem parse_outcome_by_length (buf : bytes) (t : Z) (s : ConnState) :
  parse buf t s =
  if ((36 <=? List.length buf) && negb (List.length buf mod 4 =? 0))%nat
  then (Raise StructError, s, [])
  else if t =? 23 then
    (Ok (decode_spec 23 buf), s,
     [EvPrintStatus (MsgParsed 23 (decode_spec 23 buf))])
  else if t =? 28 then
    if (40 <=? List.length buf)%nat then
      (Ok (decode_spec 28 buf), s,
       [EvPrintStatus (MsgParsed 28 (decode_spec 28 buf))])
    else (Raise IndexError, s, [])
  else (Raise (UnboundLocalError "data"), s, []).
Proof.
  pose proof (unpack_padded_outcome buf) as Hu.
  destruct ((36 <=? List.length buf) &&
            negb (List.length buf mod 4 =? 0))%nat eqn:Hbad.
  - unfold parse_input_buffer, try_except, bind, lift.
    rewrite Hu. reflexivity.
  - assert (Hsz : (List.length buf < 36 \/ List.length buf mod 4 = 0)%nat).
    { destruct (Nat.leb_spec 36 (List.length buf));
        destruct (Nat.eqb_spec (List.length buf mod 4) 0);
        cbn in Hbad; try discriminate; lia. }
    destruct (Z.eqb_spec t 23) as [->|H23]; [now apply parse_table23|].
    destruct (Z.eqb_spec t 28) as [->|H28].
    + destruct (Nat.leb_spec 40 (List.length buf)) as [H40|H40].
      * destruct Hsz as [?|Hm]; [lia|]. now apply parse_table28.
      * pose proof (Nat.div_mod_eq (List.length buf) 4).
        assert (Hmax : Nat.max 36 (List.length buf) = 36%nat) by lia.
        unfold parse_input_buffer, try_except, bind, lift.
        rewrite Hu. cbn [Z.eqb Pos.eqb].
        rewrite !(unpacked_getitem buf _ _ Hu), Hmax. reflexivity.
    + destruct (parse_unknown_table ConnState buf t s H23 H28)
        as (e & Hp & [->| ->]); [|exact Hp].
      exfalso. revert Hp.
      unfold parse_input_buffer, try_except, bind, lift. rewrite Hu.
      rewrite (proj2 (Z.eqb_neq t 23) H23), (proj2 (Z.eqb_neq t 28) H28).
      discriminate.
Qed.

(** When the decoder returns, it returns the mapping of the layout. *)
Lemma parse_ok_inv (buf : bytes) (t : Z) (s : ConnState) (m : Dict Num) :
  result_of (parse buf t s) = Ok m ->
  (t = 23 \/ t = 28) /\ m = decode_spec t buf.
Proof.
  destruct (parse_cases ConnState buf t s)
    as [(m' & Hp & Ht & _)|(e & Hp & _)]; rewrite Hp; [|discriminate].
  intros Hm. inversion Hm. subst m'. split; [exact Ht|].
  destruct Ht as [-> | ->].
  - pose proof (unpack_padded_outcome buf) as Hu.
    destruct ((36 <=? List.length buf) &&
              negb (List.length buf mod 4 =? 0))%nat eqn:Hbad.
    + revert Hp. unfold parse_input_buffer, try_except, bind, lift.
      rewrite Hu. discriminate.
    + revert Hp. unfold parse_input_buffer, try_except, bind, lift.
      rewrite Hu. cbn [Z.eqb Pos.eqb].
      rewrite !(unpacked_getitem buf _ _ Hu).
      replace (4 * 0 + 4 <=? Nat.max 36 (List.length buf))%nat with true
        by (symmetry; apply Nat.leb_le; lia).
      replace (4 * 1 + 4 <=? Nat.max 36 (List.length buf))%nat with true
        by (symmetry; apply Nat.leb_le; lia).
      intros H. inversion H. reflexivity.
  - pose proof (unpack_padded_outcome buf) as Hu.
    destruct ((36 <=? List.length buf) &&
              negb (List.length buf mod 4 =? 0))%nat eqn:Hbad.
    + revert Hp. unfold parse_input_buffer, try_except, bind, lift.
      rewrite Hu. discriminate.
    + revert Hp. unfold parse_input_buffer, try_except, bind, lift.
      rewrite Hu. cbn [Z.eqb Pos.eqb].
      rewrite !(unpacked_getitem buf _ _ Hu).
      destruct (Nat.leb_spec (4 * 9 + 4) (Nat.max 36 (List.length buf)))
        as [H9|H9].
      * repeat match goal with
               | |- context [(4 * ?i + 4 <=? ?n)%nat] =>
                   replace (4 * i + 4 <=? n)%nat with true
                     by (symmetry; apply Nat.leb_le; lia)
               end.
        intros H. inversion H. reflexivity.
      * repeat match goal with
               | |- context [(4 * ?i + 4 <=? ?n)%nat] =>
                   replace (4 * i + 4 <=? n)%nat with true
                     by (symmetry; apply Nat.leb_le; lia)
               end.
        discriminate.
Qed.

(** X2: the handler of [parse_input_buffer] is never entered.  Whatever
    the buffer and the table id, the decoder logs no error, raises no
    [ValueError] and never returns the empty mapping: a mapping it
    returns has two entries (table 23) or eight (table 28). *)
Theorem parse_never_returns_empty (buf : bytes) (t : Z) (s : ConnState) :
  Forall (fun e => is_print_error e = false) (events_of (parse buf t s)) /\
  (forall err, result_of (parse buf t s) <> Raise (ValueError err)) /\
  (forall m,
     result_of (parse buf t s) = Ok m ->
     truthy_list m = true /\
     List.length m = (if t =? 23 then 2%nat else 8%nat)).
Proof.
  destruct (parse_cases ConnState buf t s)
    as [(m' & Hp & Ht & Hk)|(e & Hp & He)]; rewrite Hp;
    cbn [events_of result_of fst snd].
  - split; [repeat constructor|]. split; [discriminate|].
    intros m Hm. injection Hm as <-.
    assert (Hlen : List.length m' = List.length (decode_spec t buf)).
    { unfold keys in Hk.
      rewrite <- (length_map fst m'), Hk. apply length_map. }
    destruct Ht as [-> | ->]; cbn in Hlen; destruct m'; cbn in *;
      (split; [reflexivity || discriminate|lia]).
  - split; [constructor|]. split; [|discriminate].
    intros err. destruct He as [->|[->| ->]]; discriminate.
Qed.

(** X3: the integers the decoder returns for [fwd_Now] and [rev_Now] are
    signed 32-bit values, whatever the bytes of the buffer. *)
Theorem decoded_powers_in_int32_range (buf : bytes) (s : ConnState)
  (m : Dict Num) :
  result_of (parse buf 28 s) = Ok m ->
  exists v0 v1,
    dict_get m "fwd_Now" = Some (PyInt v0) /\
    dict_get m "rev_Now" = Some (PyInt v1) /\
    int32_range v0 /\ int32_range v1.
Proof.
  intros Hm. apply parse_ok_inv in Hm. destruct Hm as [_ ->].
  exists (int32_at buf 0), (int32_at buf 1).
  split; [reflexivity|]. split; [reflexivity|].
  split; apply int32_le_range.
Qed.

End Decoder.

Lemma decoded_powers_in_int32_range_witness :
  result_of (parse_input_buffer nat Sample.table28 28 0%nat) =
    Ok (decode_spec 28 Sample.table28) /\
  exists v0 v1,
    dict_get (decode_spec 28 Sample.table28) "fwd_Now" = Some (PyInt v0) /\
    dict_get (decode_spec 28 Sample.table28) "rev_Now" = Some (PyInt v1) /\
    int32_range v0 /\ int32_range v1.
Proof.
  split; [reflexivity|].
  exact (decoded_powers_in_int32_range nat Sample.table28 0%nat
           (decode_spec 28 Sample.table28) eq_refl).
Defined.

Lemma parse_table23_packed_witness :
  Forall (fun z => - 2 ^ 31 <= z < 2 ^ 31) [-1500; 2147483647] /\
  parse_input_buffer nat (flat_map pack_le_i32 [-1500; 2147483647]) 23
    0%nat =
  (Ok [ ("Fwd_kWh", truediv (-1500) 1000);
        ("Rev_kWh", truediv 2147483647 1000) ]%string, 0%nat,
   [EvPrintStatus
      (MsgParsed 23
         [ ("Fwd_kWh", truediv (-1500) 1000);
           ("Rev_kWh", truediv 2147483647 1000) ]%string)]).
Proof.
  assert (H : Forall (fun z => - 2 ^ 31 <= z < 2 ^ 31) [-1500; 2147483647])
    by (repeat constructor; lia).
  split; [exact H|].
  exact (parse_table23_packed nat (-1500) 2147483647 0%nat H).
Defined.

Lemma parse_table28_packed_witness :
  Forall (fun z => - 2 ^ 31 <= z < 2 ^ 31)
         [-7; 12; 0; 0; -2147483648; 1; 2; 230000; 231000; 229500] /\
  result_of
    (parse_input_buffer nat
       (flat_map pack_le_i32
          [-7; 12; 0; 0; -2147483648; 1; 2; 230000; 231000; 229500])
       28 0%nat) =
  Ok [ ("fwd_Now", PyInt (-7)); ("rev_Now", PyInt 12);
       ("L1_A", truediv (-2147483648) 1000); ("L2_A", truediv 1 1000);
       ("L3_A", truediv 2 1000); ("L1_V", truediv 230000 1000);
       ("L2_V", truediv 231000 1000);
       ("L3_V", truediv 229500 1000) ]%string.
Proof.
  assert (H : Forall (fun z => - 2 ^ 31 <= z < 2 ^ 31)
                [-7; 12; 0; 0; -2147483648; 1; 2; 230000; 231000; 229500])
    by (repeat constructor; lia).
  split; [exact H|].
  exact (parse_table28_packed nat _ _ _ _ _ _ _ _ _ _ 0%nat H).
Defined.

End DecoderExtras.

(** ** The poll cycle, outcome by outcome *)

Module PollExtras.
Import Py Fx GetDataMqtt PyFacts FxFacts GetDataMqttFacts PublisherFacts.
Import Vocabulary DecoderExtras.

Section Poll.

Variables mqtt_topic_prefix meter_name : string.
Variable ConnState : Type.
Variable conn : TableSource ConnState.

Local Abbreviation data_topic := (data_topic_of mqtt_topic_prefix meter_name).
Local Abbreviation events_for :=
  (data_events mqtt_topic_prefix meter_name).
Local Abbreviation read_and_process :=
  (read_and_process_data mqtt_topic_prefix meter_name ConnState conn).
Local Abbreviation poll := (run mqtt_topic_prefix meter_name ConnState conn).

(** The publishes among the events of a mapping. *)
Lemma filter_publish_data_events (d : Dict Num) :
  filter is_publish (flat_map events_for d) =
  map (fun kv => EvPublish (data_topic (fst kv)) (PNum (snd kv)) 0 false) d.
Proof.
  induction d as [|kv d IH]; [reflexivity|].
  cbn [flat_map data_events app filter is_publish map]. now rewrite IH.
Qed.

Lemma filter_read_data_events (d : Dict Num) :
  filter is_read (flat_map events_for d) = [].
Proof.
  induction d as [|kv d IH]; [reflexivity|].
  cbn [flat_map data_events app filter is_read]. exact IH.
Qed.

(** A table that is read and decoded. *)
Lemma read_and_process_supported (t o : Z) (s s1 : ConnState)
  (buf : bytes) :
  conn s t o 0 = (Ok buf, s1) ->
  parse_input_buffer ConnState buf t s1 =
    (Ok (decode_spec t buf), s1,
     [EvPrintStatus (MsgParsed t (decode_spec t buf))]) ->
  t = 23 \/ t = 28 ->
  data_topics_ok mqtt_topic_prefix meter_name ->
  read_and_process t o s =
  (Ok tt, s1,
   [EvGetTablePart t o 0; EvPrintHexdump buf;
    EvPrintStatus (MsgRead (List.length buf));
    EvPrintStatus (MsgParsed t (decode_spec t buf))] ++
   flat_map events_for (decode_spec t buf)).
Proof.
  intros Hc Hp Ht Hok.
  rewrite (read_and_process_decoded mqtt_topic_prefix meter_name ConnState
             conn _ _ _ _ _ _ Hc Hp
             (decoded_topics_ok mqtt_topic_prefix meter_name t buf Hok)).
  destruct Ht as [-> | ->]; reflexivity.
Qed.

(** X6: when the broker client accepts the data topic of every sensor
    key (none is empty, holds [+] or [#] or is longer than 65535 bytes),
    a poll cycle on a meter that answers both reads with buffers the
    decoder accepts returns normally, reads table 23 and then table 28,
    once each, and publishes the two values of table 23 and then the
    eight of table 28, each unretained with QoS 0 on its data topic. *)
Theorem run_publishes_both_tables (s s1 s2 : ConnState) (b23 b28 : bytes) :
  conn s 23 8 0 = (Ok b23, s1) ->
  (List.length b23 < 36 \/ List.length b23 mod 4 = 0)%nat ->
  conn s1 28 40 0 = (Ok b28, s2) ->
  (40 <= List.length b28)%nat -> (List.length b28 mod 4 = 0)%nat ->
  data_topics_ok mqtt_topic_prefix meter_name ->
  result_of (poll s) = Ok tt /\
  state_of (poll s) = s2 /\
  filter is_read (events_of (poll s)) =
    [EvGetTablePart 23 8 0; EvGetTablePart 28 40 0] /\
  filter is_publish (events_of (poll s)) =
    map (fun kv => EvPublish (data_topic (fst kv)) (PNum (snd kv)) 0 false)
        (decode_spec 23 b23 ++ decode_spec 28 b28).
Proof.
  intros H23 Hsz23 H28 H40 Hsz28 Hok.
  pose proof (read_and_process_supported 23 8 s s1 b23 H23
                (parse_table23 ConnState b23 s1 Hsz23) (or_introl eq_refl)
                Hok) as R23.
  pose proof (read_and_process_supported 28 40 s1 s2 b28 H28
                (parse_table28 ConnState b28 s2 H40 Hsz28)
                (or_intror eq_refl) Hok) as R28.
  unfold run. rewrite (bind_ok _ _ _ _ _ _ R23), R28.
  cbn [result_of state_of events_of fst snd].
  split; [reflexivity|]. split; [reflexivity|].
  rewrite !filter_app, !filter_read_data_events,
    !filter_publish_data_events, map_app.
  split; reflexivity.
Qed.

(** X8: an exception of the connection other than [C1218ReadTableError]
    on the read of table 23 is not caught: it leaves [run] at once.
    Nothing is logged, table 28 is not read and nothing is published. *)
Theorem run_aborts_on_other_exception (s s1 : ConnState) (e : Exn) :
  conn s 23 8 0 = (Raise e, s1) ->
  (forall msg, e <> C1218ReadTableError msg) ->
  poll s = (Raise e, s1, [EvGetTablePart 23 8 0]).
Proof.
  intros H23 He.
  assert (R23 : read_and_process 23 8 s =
                (Raise e, s1, [EvGetTablePart 23 8 0])).
  { unfold read_and_process_data, try_except, bind, get_table_part.
    rewrite H23. destruct e; try reflexivity. now elim (He msg). }
  unfold run, bind. now rewrite R23.
Qed.

(** X9: when the broker client accepts the data topic of every sensor
    key and the meter answers the read of table 28 with 36 bytes or
    fewer, the poll cycle ends with an uncaught [IndexError]: the values
    of table 23 have been published by then, and no value of table 28
    is. *)
Theorem run_raises_on_short_table28 (s s1 s2 : ConnState)
  (b23 b28 : bytes) :
  conn s 23 8 0 = (Ok b23, s1) ->
  (List.length b23 < 36 \/ List.length b23 mod 4 = 0)%nat ->
  conn s1 28 40 0 = (Ok b28, s2) ->
  (List.length b28 <= 36)%nat ->
  data_topics_ok mqtt_topic_prefix meter_name ->
  result_of (poll s) = Raise IndexError /\
  filter is_publish (events_of (poll s)) =
    map (fun kv => EvPublish (data_topic (fst kv)) (PNum (snd kv)) 0 false)
        (decode_spec 23 b23).
Proof.
  intros H23 Hsz23 H28 Hshort Hok.
  pose proof (read_and_process_supported 23 8 s s1 b23 H23
                (parse_table23 ConnState b23 s1 Hsz23) (or_introl eq_refl)
                Hok) as R23.
  pose proof (read_and_process_decode_raises mqtt_topic_prefix meter_name
                ConnState conn 28 40 s1 s2 b28 IndexError H28
                (parse_table28_short ConnState b28 s2 Hshort)
                ltac:(discriminate)) as R28.
  unfold run. rewrite (bind_ok _ _ _ _ _ _ R23), R28.
  cbn [result_of events_of fst snd].
  split; [reflexivity|].
  rewrite !filter_app, !filter_publish_data_events. reflexivity.
Qed.

(** X7: when the broker client accepts the data topic of every sensor
    key, table 23 is decoded and the read of table 28 raises
    [C1218ReadTableError], the poll cycle returns normally: the two
    values of table 23 have been published, the error is logged and
    nothing is published for table 28. *)
Theorem run_table28_read_error_keeps_table23 (s s1 s2 : ConnState)
  (b23 : bytes) (msg : string) :
  conn s 23 8 0 = (Ok b23, s1) ->
  (List.length b23 < 36 \/ List.length b23 mod 4 = 0)%nat ->
  conn s1 28 40 0 = (Raise (C1218ReadTableError msg), s2) ->
  data_topics_ok mqtt_topic_prefix meter_name ->
  poll s =
    (Ok tt, s2,
     [EvGetTablePart 23 8 0; EvPrintHexdump b23;
      EvPrintStatus (MsgRead (List.length b23));
      EvPrintStatus (MsgParsed 23 (decode_spec 23 b23))] ++
     flat_map events_for (decode_spec 23 b23) ++
     [EvGetTablePart 28 40 0; EvPrintError (MsgCaught msg)]) /\
  filter is_publish (events_of (poll s)) =
    map (fun kv => EvPublish (data_topic (fst kv)) (PNum (snd kv)) 0 false)
        (decode_spec 23 b23).
Proof.
  intros H23 Hsz23 H28 Hok.
  pose proof (read_and_process_supported 23 8 s s1 b23 H23
                (parse_table23 ConnState b23 s1 Hsz23) (or_introl eq_refl)
                Hok) as R23.
  pose proof (read_and_process_read_error mqtt_topic_prefix meter_name
                ConnState conn 28 40 s1 s2 msg H28) as R28.
  unfold run. rewrite (bind_ok _ _ _ _ _ _ R23), R28.
  cbn [result_of state_of events_of fst snd].
  split; [now rewrite <- app_assoc|].
  rewrite !filter_app, !filter_publish_data_events. reflexivity.
Qed.

(** One table of the cycle on a connection that raises nothing but read
    errors. *)
Lemma read_and_process_outcomes (t o : Z) (s : ConnState) :
  raises_read_errors_only conn -> t = 23 \/ t = 28 ->
  data_topics_ok mqtt_topic_prefix meter_name ->
  result_of (read_and_process t o s) = Ok tt \/
  result_of (read_and_process t o s) = Raise StructError \/
  result_of (read_and_process t o s) = Raise IndexError.
Proof.
  intros Hconn Ht Hok.
  destruct (conn s t o 0) as [[buf|e] s1] eqn:Hc.
  - destruct (parse_supported_cases ConnState buf t s1 Ht)
      as [Hp|[Hp|(_ & _ & Hp)]].
    + rewrite (read_and_process_supported _ _ _ _ _ Hc Hp Ht Hok).
      now left.
    + rewrite (read_and_process_decode_raises mqtt_topic_prefix meter_name
                 ConnState conn _ _ _ _ _ _ Hc Hp)
        by discriminate.
      right. now left.
    + rewrite (read_and_process_decode_raises mqtt_topic_prefix meter_name
                 ConnState conn _ _ _ _ _ _ Hc Hp)
        by discriminate.
      right. now right.
  - destruct (Hconn _ _ _ _ _ _ Hc) as [msg ->].
    rewrite (read_and_process_read_error mqtt_topic_prefix meter_name
               ConnState conn _ _ _ _ _ Hc).
    now left.
Qed.

(** X10: when the broker client accepts the data topic of every sensor
    key, on a connection whose reads raise nothing but
    [C1218ReadTableError], a poll cycle either returns or raises
    [struct.error] or [IndexError]; no read error and no
    [UnboundLocalError] leaves it. *)
Theorem run_outcomes (s : ConnState) :
  raises_read_errors_only conn ->
  data_topics_ok mqtt_topic_prefix meter_name ->
  result_of (poll s) = Ok tt \/
  result_of (poll s) = Raise StructError \/
  result_of (poll s) = Raise IndexError.
Proof.
  intros Hconn Hok. unfold run, bind.
  pose proof (read_and_process_outcomes 23 8 s Hconn (or_introl eq_refl)
                Hok) as H1.
  destruct (read_and_process 23 8 s) as [[[u|e] s1] t1];
    cbn [result_of fst] in *.
  - pose proof (read_and_process_outcomes 28 40 s1 Hconn
                  (or_intror eq_refl) Hok) as H2.
    destruct (read_and_process 28 40 s1) as [[r s2] t2];
      cbn [result_of fst] in *.
    exact H2.
  - exact H1.
Qed.

End Poll.

Lemma run_publishes_both_tables_witness :
  Sample.meter 0%nat 23 8 0 = (Ok Sample.table23, 1%nat) /\
  (List.length Sample.table23 < 36 \/
   List.length Sample.table23 mod 4 = 0)%nat /\
  Sample.meter 1%nat 28 40 0 = (Ok Sample.table28, 2%nat) /\
  (40 <= List.length Sample.table28)%nat /\
  (List.length Sample.table28 mod 4 = 0)%nat /\
  data_topics_ok Sample.topic_prefix Sample.name /\
  result_of (run Sample.topic_prefix Sample.name nat Sample.meter 0%nat) =
    Ok tt.
Proof.
  assert (H1 : (List.length Sample.table23 < 36 \/
                List.length Sample.table23 mod 4 = 0)%nat)
    by (left; cbn; lia).
  assert (H2 : (40 <= List.length Sample.table28)%nat) by (cbn; lia).
  repeat (split; [first [reflexivity | assumption
                             | exact Evaluated.sample_data_topics_ok]|]).
  exact (proj1 (run_publishes_both_tables Sample.topic_prefix Sample.name
                  nat Sample.meter 0%nat 1%nat 2%nat Sample.table23
                  Sample.table28 eq_refl H1 eq_refl H2 eq_refl
                  Evaluated.sample_data_topics_ok)).
Defined.

Lemma run_table28_read_error_keeps_table23_witness :
  Scenario.meter_without_table28 0%nat 23 8 0 =
    (Ok Sample.table23, 1%nat) /\
  (List.length Sample.table23 < 36 \/
   List.length Sample.table23 mod 4 = 0)%nat /\
  Scenario.meter_without_table28 1%nat 28 40 0 =
    (Raise (C1218ReadTableError "no response"), 2%nat) /\
  data_topics_ok Sample.topic_prefix Sample.name /\
  filter is_publish
    (events_of (run Sample.topic_prefix Sample.name nat
                  Scenario.meter_without_table28 0%nat)) =
    map (fun kv =>
           EvPublish (data_topic_of Sample.topic_prefix Sample.name (fst kv))
                     (PNum (snd kv)) 0 false)
        (decode_spec 23 Sample.table23).
Proof.
  assert (H1 : (List.length Sample.table23 < 36 \/
                List.length Sample.table23 mod 4 = 0)%nat)
    by (left; cbn; lia).
  split; [reflexivity|]. split; [exact H1|]. split; [reflexivity|].
  split; [exact Evaluated.sample_data_topics_ok|].
  exact (proj2 (run_table28_read_error_keeps_table23 Sample.topic_prefix
                  Sample.name nat Scenario.meter_without_table28 0%nat
                  1%nat 2%nat Sample.table23 "no response" eq_refl H1
                  eq_refl Evaluated.sample_data_topics_ok)).
Defined.

Lemma run_aborts_on_other_exception_witness :
  Scenario.link_down 0%nat 23 8 0 =
    (Raise (OtherError "serial timeout"), 1%nat) /\
  (forall msg, OtherError "serial timeout" <> C1218ReadTableError msg) /\
  run Sample.topic_prefix Sample.name nat Scenario.link_down 0%nat =
    (Raise (OtherError "serial timeout"), 1%nat, [EvGetTablePart 23 8 0]).
Proof.
  assert (H : forall msg,
             OtherError "serial timeout" <> C1218ReadTableError msg)
    by (intros msg; discriminate).
  split; [reflexivity|]. split; [exact H|].
  exact (run_aborts_on_other_exception Sample.topic_prefix Sample.name nat
           Scenario.link_down 0%nat 1%nat _ eq_refl H).
Defined.

Lemma run_raises_on_short_table28_witness :
  Scenario.meter_short_table28 0%nat 23 8 0 = (Ok Sample.table23, 1%nat) /\
  (List.length Sample.table23 < 36 \/
   List.length Sample.table23 mod 4 = 0)%nat /\
  Scenario.meter_short_table28 1%nat 28 40 0 =
    (Ok Sample.table28_short, 2%nat) /\
  (List.length Sample.table28_short <= 36)%nat /\
  data_topics_ok Sample.topic_prefix Sample.name /\
  result_of (run Sample.topic_prefix Sample.name nat
               Scenario.meter_short_table28 0%nat) = Raise IndexError.
Proof.
  assert (H1 : (List.length Sample.table23 < 36 \/
                List.length Sample.table23 mod 4 = 0)%nat)
    by (left; cbn; lia).
  assert (H2 : (List.length Sample.table28_short <= 36)%nat) by (cbn; lia).
  repeat (split; [first [reflexivity | assumption
                             | exact Evaluated.sample_data_topics_ok]|]).
  exact (proj1 (run_raises_on_short_table28 Sample.topic_prefix Sample.name
                  nat Scenario.meter_short_table28 0%nat 1%nat 2%nat
                  Sample.table23 Sample.table28_short eq_refl H1 eq_refl
                  H2 Evaluated.sample_data_topics_ok)).
Defined.

Lemma meter_without_table23_raises_read_errors_only :
  raises_read_errors_only Sample.meter_without_table23.
Proof.
  intros s t o f e s'. unfold Sample.meter_without_table23, Sample.meter.
  destruct (t =? 23); [|destruct (t =? 28)]; intros H;
    inversion H; eauto.
Qed.

Lemma run_outcomes_witness :
  raises_read_errors_only Sample.meter_without_table23 /\
  data_topics_ok Sample.topic_prefix Sample.name /\
  (result_of (run Sample.topic_prefix Sample.name nat
                Sample.meter_without_table23 0%nat) = Ok tt \/
   result_of (run Sample.topic_prefix Sample.name nat
                Sample.meter_without_table23 0%nat) = Raise StructError \/
   result_of (run Sample.topic_prefix Sample.name nat
                Sample.meter_without_table23 0%nat) = Raise IndexError).
Proof.
  split; [exact meter_without_table23_raises_read_errors_only|].
  split; [exact Evaluated.sample_data_topics_ok|].
  exact (run_outcomes Sample.topic_prefix Sample.name nat
           Sample.meter_without_table23 0%nat
           meter_without_table23_raises_read_errors_only
           Evaluated.sample_data_topics_ok).
Defined.

End PollExtras.

(** ** Discovery and topics *)

Module DiscoveryExtras.
Import Py Fx GetDataMqtt PyFacts FxFacts GetDataMqttFacts PublisherFacts.
Import Vocabulary.

Lemma append_cancel_l (a x y : string) : a +++ x = a +++ y -> x = y.
Proof.
  induction a as [|c a IH]; cbn [append]; intros H; [exact H|].
  injection H as H. now apply IH.
Qed.

Lemma length_append (a b : string) :
  String.length (a +++ b) = (String.length a + String.length b)%nat.
Proof.
  induction a as [|c a IH]; cbn [append String.length]; [reflexivity|].
  now rewrite IH.
Qed.

Lemma append_cancel_r (c : string) :
  forall x y : string, x +++ c = y +++ c -> x = y.
Proof.
  induction x as [|a x IH]; intros [|b y] H.
  - reflexivity.
  - apply (f_equal String.length) in H.
    rewrite !length_append in H. cbn [String.length] in H. lia.
  - apply (f_equal String.length) in H.
    rewrite !length_append in H. cbn [String.length] in H. lia.
  - cbn [append] in H. injection H as -> H. f_equal. now apply IH.
Qed.

Section Discovery.

Variables mqtt_topic_prefix meter_name meter_id : string.
Variable ConnState : Type.

Local Abbreviation config_topic := (config_topic_of meter_name).
Local Abbreviation data_topic := (data_topic_of mqtt_topic_prefix meter_name).
Local Abbreviation gen_config :=
  (get_or_create_config mqtt_topic_prefix meter_name meter_id ConnState).
Local Abbreviation payload_of :=
  (discovery_payload mqtt_topic_prefix meter_name meter_id).
Local Abbreviation data_of :=
  (config_data mqtt_topic_prefix meter_name meter_id).
Local Abbreviation publish_configs :=
  (publish_initial_configurations mqtt_topic_prefix meter_name meter_id
     ConnState).
Local Abbreviation publish_values :=
  (publish_data mqtt_topic_prefix meter_name ConnState).
Local Abbreviation cfg_events :=
  (config_events mqtt_topic_prefix meter_name meter_id).
Local Abbreviation events_for :=
  (data_events mqtt_topic_prefix meter_name).

(** The catalog has a row for a key exactly when the key is one of
    [sensor_types]. *)
Lemma config_details_lookup (key : string) :
  (is_sensor_key key = true /\
   exists entry, dict_get config_details key = Some entry) \/
  (is_sensor_key key = false /\ dict_get config_details key = None).
Proof.
  unfold is_sensor_key, sensor_types, config_details.
  cbn [existsb dict_get].
  repeat match goal with
         | |- context [String.eqb key ?k] =>
             destruct (String.eqb key k);
             [left; split; [reflexivity|eexists; reflexivity]|]
         end.
  right. split; reflexivity.
Qed.

(** X11: [get_or_create_config] on a key of [sensor_types] logs the
    configuration and returns a non-empty payload; on any other key it
    logs one warning and returns [None].  It never raises and publishes
    nothing itself. *)
Theorem get_or_create_config_by_key (key : string) (s : ConnState) :
  (is_sensor_key key = true /\
   exists entry,
     dict_get config_details key = Some entry /\
     gen_config key s =
       (Ok (Some (json_dumps (JObj (data_of key entry)))), s,
        [EvPrintStatus (MsgConfigCreated key (JObj (data_of key entry)))]) /\
     truthy_str (json_dumps (JObj (data_of key entry))) = true) \/
  (is_sensor_key key = false /\
   gen_config key s = (Ok None, s, [EvLogWarning (MsgNoConfig key)])).
Proof.
  destruct (config_details_lookup key) as [[Hk [entry He]]|[Hk He]].
  - left. split; [exact Hk|]. exists entry. split; [exact He|].
    unfold get_or_create_config. rewrite He. split; reflexivity.
  - right. split; [exact Hk|].
    unfold get_or_create_config. now rewrite He.
Qed.

Lemma config_events_by_key (key : string) :
  (is_sensor_key key = true /\
   exists p,
     payload_of key = Some p /\
     filter is_publish (cfg_events key) =
       [EvPublish (config_topic key) (PStr p) 0 true] /\
     filter is_log_warning (cfg_events key) = []) \/
  (is_sensor_key key = false /\
   payload_of key = None /\
   filter is_publish (cfg_events key) = [] /\
   filter is_log_warning (cfg_events key) = [EvLogWarning (MsgNoConfig key)]).
Proof.
  unfold config_events, discovery_payload.
  destruct (config_details_lookup key) as [[Hk [entry He]]|[Hk He]];
    rewrite He.
  - left. split; [exact Hk|]. eexists. repeat split; reflexivity.
  - right. repeat split; [exact Hk|reflexivity..].
Qed.

(** X12: when the broker client accepts the discovery topic and the
    payload of every key of the list that has a configuration (the topic
    is not empty, holds no [+] and no [#] and is at most 65535 bytes
    long), [publish_initial_configurations] goes through the whole list
    whatever its keys: it returns normally, publishes one retained
    payload for each key of the list that is in [sensor_types], in the
    order of the list, and logs one warning for each key that is not. *)
Theorem publish_initial_configurations_skips_unknown_keys
  (l : list string) (s : ConnState) :
  Forall (fun key =>
            config_publish_ok mqtt_topic_prefix meter_name meter_id key =
            true) l ->
  result_of (publish_configs l s) = Ok tt /\
  state_of (publish_configs l s) = s /\
  filter is_publish (events_of (publish_configs l s)) =
    flat_map
      (fun key =>
         match payload_of key with
         | Some p => [EvPublish (config_topic key) (PStr p) 0 true]
         | None => []
         end) (filter is_sensor_key l) /\
  filter is_log_warning (events_of (publish_configs l s)) =
    map (fun key => EvLogWarning (MsgNoConfig key))
        (filter (fun key => negb (is_sensor_key key)) l).
Proof.
  intros Hok.
  rewrite (publish_configs_eq mqtt_topic_prefix meter_name meter_id
             ConnState l s Hok).
  cbn [result_of state_of events_of fst snd].
  split; [reflexivity|]. split; [reflexivity|]. clear Hok.
  induction l as [|key l [IHp IHw]]; [split; reflexivity|].
  cbn [flat_map filter]. rewrite !filter_app, IHp, IHw.
  destruct (config_events_by_key key)
    as [(Hk & p & Hp & Hpub & Hwarn)|(Hk & Hp & Hpub & Hwarn)];
    rewrite Hk, Hpub, Hwarn; cbn [negb flat_map map app]; rewrite ?Hp;
    split; reflexivity.
Qed.

(** X13: whatever the row, the discovery [data] of a key announces as
    [state_topic] the very topic [publish_data] publishes the key's value
    on, and as [unique_id] the meter id and the key. *)
Theorem discovery_state_topic_is_data_topic (key : string)
  (entry : ConfigEntry) (v : Num) (s : ConnState) :
  dict_get (data_of key entry) "state_topic" =
    Some (JStr (data_topic key)) /\
  dict_get (data_of key entry) "unique_id" =
    Some (JStr (meter_id +++ "_" +++ key)) /\
  filter is_publish (events_of (publish_values [(key, v)] s)) =
    [EvPublish (data_topic key) (PNum v) 0 false].
Proof.
  split; [|split].
  - destruct entry as [[[[icon name] unit] state_class] [dc|]];
      cbn [config_data]; [destruct (truthy_str dc)|]; reflexivity.
  - destruct entry as [[[[icon name] unit] state_class] [dc|]];
      cbn [config_data]; [destruct (truthy_str dc)|]; reflexivity.
  - unfold publish_data, publish, client_publish, bind, emit.
    cbn [for_each fst snd].
    destruct (client_publish_error (data_topic key) (PNum v) 0);
      reflexivity.
Qed.

(** X14: distinct keys have distinct data topics, distinct discovery
    topics and distinct unique ids. *)
Theorem topics_injective (k1 k2 : string) :
  (data_topic_of mqtt_topic_prefix meter_name k1 =
   data_topic_of mqtt_topic_prefix meter_name k2 -> k1 = k2) /\
  (config_topic_of meter_name k1 = config_topic_of meter_name k2 ->
   k1 = k2) /\
  (meter_id +++ "_" +++ k1 = meter_id +++ "_" +++ k2 -> k1 = k2).
Proof.
  split; [|split].
  - unfold data_topic_of. intros H.
    now repeat apply append_cancel_l in H.
  - unfold config_topic_of. intros H.
    repeat apply append_cancel_l in H.
    now apply append_cancel_r in H.
  - intros H. now repeat apply append_cancel_l in H.
Qed.

Lemma NoDup_map_injective {A B} (f : A -> B) (l : list A) :
  (forall x y, f x = f y -> x = y) -> NoDup l -> NoDup (map f l).
Proof.
  intros Hf Hl. induction Hl as [|x l Hx Hl IH]; cbn [map]; constructor.
  - intros Hin. apply in_map_iff in Hin. destruct Hin as (y & Hy & Hin).
    apply Hf in Hy. now subst y.
  - exact IH.
Qed.

(** X15: when the broker client accepts the data topic of every key of
    the mapping (the topic is not empty, holds no [+] and no [#] and is
    at most 65535 bytes long), [publish_data] returns normally, on the
    empty mapping included, and publishes each entry once, in the order
    of the mapping; when the keys are distinct, as the keys of a decoded
    mapping are, so are the topics. *)
Theorem publish_data_once_per_entry (d : Dict Num) (s : ConnState) :
  Forall (fun kv =>
            data_topic_ok mqtt_topic_prefix meter_name (fst kv) = true) d ->
  result_of (publish_values d s) = Ok tt /\
  state_of (publish_values d s) = s /\
  filter is_publish (events_of (publish_values d s)) =
    map (fun kv => EvPublish (data_topic (fst kv)) (PNum (snd kv)) 0 false)
        d /\
  (NoDup (keys d) ->
   NoDup (map (fun kv => data_topic (fst kv)) d)) /\
  (forall t buf, NoDup (keys (decode_spec t buf))).
Proof.
  intros Hok.
  rewrite (publish_data_eq mqtt_topic_prefix meter_name ConnState d s Hok).
  cbn [result_of state_of events_of fst snd].
  split; [reflexivity|]. split; [reflexivity|]. clear Hok.
  split; [|split].
  - induction d as [|kv d IH]; [reflexivity|].
    cbn [flat_map data_events app filter is_publish map]. now rewrite IH.
  - intros Hd. unfold keys in Hd.
    rewrite <- (map_map fst data_topic).
    apply NoDup_map_injective; [|exact Hd].
    intros x y H. unfold data_topic_of in H.
    now repeat apply append_cancel_l in H.
  - intros t buf. unfold decode_spec, field_layout, keys.
    destruct (t =? 23); [|destruct (t =? 28)]; cbn [map fst snd];
      repeat (constructor; [cbn [In]; intuition discriminate|]);
      constructor.
Qed.

End Discovery.

Lemma publish_initial_configurations_skips_unknown_keys_witness :
  Forall (fun key =>
            config_publish_ok Sample.topic_prefix Sample.name Sample.id
              key = true)
         Scenario.mixed_keys /\
  result_of
    (publish_initial_configurations Sample.topic_prefix Sample.name
       Sample.id nat Scenario.mixed_keys 0%nat) =
    Ok tt.
Proof.
  assert (H : Forall (fun key =>
                        config_publish_ok Sample.topic_prefix Sample.name
                          Sample.id key = true)
                     Scenario.mixed_keys)
    by (repeat (constructor; [vm_compute; reflexivity|]); constructor).
  split; [exact H|].
  exact (proj1 (publish_initial_configurations_skips_unknown_keys
                  Sample.topic_prefix Sample.name Sample.id nat
                  Scenario.mixed_keys 0%nat H)).
Defined.

Lemma publish_data_once_per_entry_witness :
  Forall (fun kv =>
            data_topic_ok Sample.topic_prefix Sample.name (fst kv) = true)
         Scenario.two_values /\
  result_of
    (publish_data Sample.topic_prefix Sample.name nat
       Scenario.two_values 0%nat) =
    Ok tt.
Proof.
  assert (H : Forall (fun kv =>
                        data_topic_ok Sample.topic_prefix Sample.name
                          (fst kv) = true)
                     Scenario.two_values)
    by (repeat (constructor; [vm_compute; reflexivity|]); constructor).
  split; [exact H|].
  exact (proj1 (publish_data_once_per_entry Sample.topic_prefix Sample.name
                  nat Scenario.two_values 0%nat H)).
Defined.

End DiscoveryExtras.

(** ** Topics the broker client refuses *)

Module BrokerExtras.
Import Py Fx GetDataMqtt PyFacts FxFacts GetDataMqttFacts PublisherFacts.
Import Vocabulary.



Section Broker.

Variables mqtt_topic_prefix meter_name meter_id : string.
Variable connect_outcome : option string.
Variable ConnState : Type.
Variable conn : TableSource ConnState.

Local Abbreviation config_topic := (config_topic_of meter_name).
Local Abbreviation data_topic := (data_topic_of mqtt_topic_prefix meter_name).
Local Abbreviation payload_of :=
  (discovery_payload mqtt_topic_prefix meter_name meter_id).
Local Abbreviation publish_values :=
  (publish_data mqtt_topic_prefix meter_name ConnState).
Local Abbreviation events_for :=
  (data_events mqtt_topic_prefix meter_name).






End Broker.




End BrokerExtras.
(** ** The serialised payload *)

Module JsonExtras.
Import Py Fx GetDataMqtt Vocabulary.

Lemma printable_append (a b : string) :
  printable (a +++ b) = printable a && printable b.
Proof.
  induction a as [|c a IH]; cbn [append printable]; [reflexivity|].
  rewrite IH. now rewrite andb_assoc.
Qed.

Lemma escape_char_printable (c : ascii) : printable (escape_char c) = true.
Proof.
  destruct c as [[] [] [] [] [] [] [] []]; reflexivity.
Qed.

Lemma escape_string_printable (s : string) :
  printable (escape_string s) = true.
Proof.
  induction s as [|c s IH]; [reflexivity|].
  cbn [escape_string]. now rewrite printable_append, escape_char_printable.
Qed.

Lemma encode_basestring_ascii_printable (s : string) :
  printable (encode_basestring_ascii s) = true.
Proof.
  unfold encode_basestring_ascii.
  now rewrite !printable_append, escape_string_printable.
Qed.

Lemma concat_printable (sep : string) (l : list string) :
  printable sep = true -> Forall (fun s => printable s = true) l ->
  printable (String.concat sep l) = true.
Proof.
  intros Hsep Hl. induction Hl as [|x l Hx Hl IH]; [reflexivity|].
  destruct l as [|y l]; cbn [String.concat]; [exact Hx|].
  rewrite !printable_append, Hx, Hsep. exact IH.
Qed.

(** Induction on a JSON value, through its lists. *)
Lemma Json_induction (P : Json -> Prop) :
  (forall s, P (JStr s)) ->
  (forall l, Forall P l -> P (JList l)) ->
  (forall o, Forall (fun kv => P (snd kv)) o -> P (JObj o)) ->
  forall j, P j.
Proof.
  intros HS HL HO.
  exact (fix go (j : Json) : P j :=
           match j with
           | JStr s => HS s
           | JList l =>
               HL l ((fix all (l : list Json) : Forall P l :=
                        match l with
                        | [] => Forall_nil P
                        | x :: l' => Forall_cons x (go x) (all l')
                        end) l)
           | JObj o =>
               HO o ((fix all (o : list (string * Json))
                        : Forall (fun kv => P (snd kv)) o :=
                        match o with
                        | [] => Forall_nil _
                        | (k, v) :: o' =>
                            Forall_cons (k, v) (go v) (all o')
                        end) o)
           end).
Qed.

Lemma json_dumps_printable (j : Json) : printable (json_dumps j) = true.
Proof.
  induction j as [s|l IH|o IH] using Json_induction; cbn [json_dumps].
  - apply encode_basestring_ascii_printable.
  - rewrite !printable_append. cbn [printable printable_char].
    rewrite concat_printable; [reflexivity..|].
    apply Forall_map. exact IH.
  - rewrite !printable_append. cbn [printable printable_char].
    rewrite concat_printable; [reflexivity..|].
    apply Forall_map. apply Forall_forall. intros kv Hkv.
    rewrite !printable_append, encode_basestring_ascii_printable.
    rewrite Forall_forall in IH. now rewrite (IH kv Hkv).
Qed.

Section Payload.

Variables mqtt_topic_prefix meter_name meter_id : string.
Variable ConnState : Type.

(** X16: for a topic prefix, a meter name and a meter id whose
    characters all have code points below 256 (the strings of this
    development; a character of a higher code point is not modelled),
    and whatever the key, a payload [get_or_create_config] returns is
    made of printable ASCII characters only: [json.dumps] escapes every
    other character. *)
Theorem discovery_payload_printable_ascii (key : string) (s : ConnState)
  (p : string) :
  result_of
    (get_or_create_config mqtt_topic_prefix meter_name meter_id ConnState
       key s) = Ok (Some p) ->
  printable p = true.
Proof.
  rewrite (proj1 (PublisherFacts.get_or_create_config_eq
                    mqtt_topic_prefix meter_name meter_id ConnState key s)).
  unfold discovery_payload.
  destruct (dict_get config_details key) as [entry|]; intros H.
  - replace p
      with (json_dumps
              (JObj (config_data mqtt_topic_prefix meter_name meter_id
                       key entry))) by congruence.
    apply json_dumps_printable.
  - discriminate H.
Qed.

End Payload.

Lemma discovery_payload_printable_ascii_witness :
  (exists p,
     result_of
       (get_or_create_config Scenario.odd_prefix Sample.name Sample.id nat
          "L1_V" 0%nat) = Ok (Some p) /\ printable p = true).
Proof.
  eexists. split; [reflexivity|].
  exact (discovery_payload_printable_ascii Scenario.odd_prefix Sample.name
           Sample.id nat "L1_V" 0%nat _ eq_refl).
Defined.

End JsonExtras.

(** ** get_data.py, outcome by outcome *)

Module GetDataExtras.
Import Py Fx FxFacts Vocabulary.

Lemma b2a_hex_cons (b : byte) (d : bytes) :
  b2a_hex (b :: d) = hex_of_byte b +++ b2a_hex d.
Proof.
  unfold b2a_hex. cbn [map String.concat].
  destruct d as [|b' d]; [|reflexivity].
  cbn [map String.concat]. unfold hex_of_byte. reflexivity.
Qed.

Lemma a2b_hex_of_byte (b : byte) (s : string) :
  a2b_hex (hex_of_byte b +++ s) =
  match a2b_hex s with Some rest => Some (b :: rest) | None => None end.
Proof.
  destruct b; cbn [hex_of_byte append]; destruct (a2b_hex s) eqn:Hs;
    cbn; rewrite Hs; reflexivity.
Qed.

(** X17: the text written to a dump file has two characters per byte
    read, all of them lowercase hexadecimal digits, and reads back to the
    very bytes. *)
Theorem b2a_hex_round_trip (data : bytes) :
  a2b_hex (b2a_hex data) = Some data /\
  String.length (b2a_hex data) = (2 * List.length data)%nat /\
  all_hex (b2a_hex data) = true.
Proof.
  induction data as [|b data (IHr & IHl & IHh)]; [repeat split|].
  rewrite b2a_hex_cons. split; [|split].
  - now rewrite a2b_hex_of_byte, IHr.
  - unfold hex_of_byte. cbn [append String.length]. rewrite IHl.
    cbn [List.length]. lia.
  - destruct b; cbn [hex_of_byte append]; exact IHh.
Qed.

Section Run.

Variable ConnState : Type.
Variable conn : TableSource ConnState.

Local Abbreviation dump := (GetData.run ConnState conn).

(** X19: when table 23 is read and the read of table 28 raises
    [C1218ReadTableError], [run] logs the error and goes on with [data]
    still holding the bytes of table 23: it reports and dumps them a
    second time, and [/var/tmp/BT28] receives the content of table 23. *)
Theorem run_table28_error_dumps_table23_again (s s1 s2 : ConnState)
  (b23 : bytes) (msg : string) :
  conn s 23 8 0 = (Ok b23, s1) ->
  conn s1 28 40 0 = (Raise (C1218ReadTableError msg), s2) ->
  dump s =
    (Ok tt, s2,
     [EvGetTablePart 23 8 0; EvPrintStatus (MsgRead (List.length b23));
      EvPrintHexdump b23; EvFileWrite "/var/tmp/BT23" (b2a_hex b23);
      EvGetTablePart 28 40 0; EvPrintError (MsgCaught msg);
      EvPrintStatus (MsgRead (List.length b23));
      EvPrintHexdump b23; EvFileWrite "/var/tmp/BT28" (b2a_hex b23)]).
Proof.
  intros H23 H28.
  unfold GetData.run, GetData.write_file, try_except, bind, get_table_part.
  rewrite H23. cbn [ret load_local emit]. rewrite H28. reflexivity.
Qed.

(** A read of table 23 that raises something else than a read error. *)
Lemma run_other_exception (s s1 : ConnState) (e : Exn) :
  conn s 23 8 0 = (Raise e, s1) ->
  (forall msg, e <> C1218ReadTableError msg) ->
  dump s = (Raise e, s1, [EvGetTablePart 23 8 0]).
Proof.
  intros H23 He.
  unfold GetData.run, GetData.write_file, try_except, bind, get_table_part.
  rewrite H23. destruct e; try reflexivity. now elim (He msg).
Qed.

(** X20: on a connection whose reads raise nothing but
    [C1218ReadTableError], [run] returns exactly when table 23 could be
    read, and it has then written both files; otherwise it raises
    [UnboundLocalError] and has written none. *)
Theorem run_returns_iff_table23_read (s : ConnState) :
  raises_read_errors_only conn ->
  (result_of (dump s) = Ok tt <->
   exists b23 s1, conn s 23 8 0 = (Ok b23, s1)) /\
  (result_of (dump s) = Raise (UnboundLocalError "data") <->
   exists msg s1, conn s 23 8 0 = (Raise (C1218ReadTableError msg), s1)) /\
  (result_of (dump s) = Ok tt \/
   result_of (dump s) = Raise (UnboundLocalError "data")) /\
  List.length (filter is_file_write (events_of (dump s))) =
    (match result_of (dump s) with Ok _ => 2 | Raise _ => 0 end)%nat.
Proof.
  intros Hconn.
  unfold GetData.run, GetData.write_file, try_except, bind, get_table_part.
  destruct (conn s 23 8 0) as [[b23|e] s1] eqn:H23.
  - cbn [ret load_local emit].
    destruct (conn s1 28 40 0) as [[b28|e] s2] eqn:H28.
    + cbn. repeat split; eauto; try discriminate.
      intros (msg & s' & H). discriminate H.
    + destruct (Hconn _ _ _ _ _ _ H28) as [msg ->].
      cbn. repeat split; eauto; try discriminate.
      intros (msg' & s' & H). discriminate H.
  - destruct (Hconn _ _ _ _ _ _ H23) as [msg ->].
    cbn. repeat split; eauto; try discriminate.
    intros (b & s' & H). discriminate H.
Qed.

End Run.

Lemma meter_without_table28_raises_read_errors_only :
  raises_read_errors_only Scenario.meter_without_table28.
Proof.
  intros s t o f e s'.
  unfold Scenario.meter_without_table28, Sample.meter.
  destruct (t =? 28); [|destruct (t =? 23)]; intros H;
    inversion H; eauto.
Qed.

Lemma run_table28_error_witness :
  Scenario.meter_without_table28 0%nat 23 8 0 =
    (Ok Sample.table23, 1%nat) /\
  Scenario.meter_without_table28 1%nat 28 40 0 =
    (Raise (C1218ReadTableError "no response"), 2%nat) /\
  In (EvFileWrite "/var/tmp/BT28" (b2a_hex Sample.table23))
     (events_of (GetData.run nat Scenario.meter_without_table28 0%nat)).
Proof.
  split; [reflexivity|]. split; [reflexivity|].
  rewrite (run_table28_error_dumps_table23_again nat
             Scenario.meter_without_table28 0%nat 1%nat 2%nat
             Sample.table23 "no response" eq_refl eq_refl).
  cbn [events_of snd In]. do 8 right. left. reflexivity.
Defined.

Lemma run_returns_iff_table23_read_witness :
  raises_read_errors_only Scenario.meter_without_table28 /\
  (result_of (GetData.run nat Scenario.meter_without_table28 0%nat) =
     Ok tt <->
   exists b23 s1,
     Scenario.meter_without_table28 0%nat 23 8 0 = (Ok b23, s1)).
Proof.
  split; [exact meter_without_table28_raises_read_errors_only|].
  exact (proj1 (run_returns_iff_table23_read nat
                  Scenario.meter_without_table28 0%nat
                  meter_without_table28_raises_read_errors_only)).
Defined.

Lemma run_both_tables_witness :
  Sample.meter 0%nat 23 8 0 = (Ok Sample.table23, 1%nat) /\
  Sample.meter 1%nat 28 40 0 = (Ok Sample.table28, 2%nat) /\
  GetData.run nat Sample.meter 0%nat =
    (Ok tt, 2%nat,
     [EvGetTablePart 23 8 0; EvPrintStatus (MsgRead 8);
      EvPrintHexdump Sample.table23;
      EvFileWrite "/var/tmp/BT23" "e8030000d0070000";
      EvGetTablePart 28 40 0; EvPrintStatus (MsgRead 40);
      EvPrintHexdump Sample.table28;
      EvFileWrite "/var/tmp/BT28" (b2a_hex Sample.table28)]).
Proof.
  split; [reflexivity|]. split; [reflexivity|].
  exact (GetDataFacts.run_both_tables nat Sample.meter 0%nat 1%nat 2%nat
           Sample.table23 Sample.table28 eq_refl eq_refl).
Defined.

End GetDataExtras.
